(** * ECommerceSystem.ts: products, cart, customer, shipping and checkout

    A shallow embedding of [src/ECommerceSystem.ts] and the properties of
    its checkout transaction.

    Modelling choices.
    - A JavaScript [number] is an exact rational ([Q]) in the embedding of
      the objects and of the control flow: the operations, their order and
      the comparisons are those of the source; the rounding of binary64
      and the values NaN and Infinity are outside it, and what is stated
      on it names the numbers the code computes and compares them.
    - Where the rounding decides, for the value of the shipping fee, the
      code is embedded on the doubles themselves ([Float64]), with the
      addition and the multiplication of binary64.
    - A [Date] is its time value in milliseconds ([Z]); [new Date()] reads
      the clock, which is the parameter [now] of the operations that use it.
    - Objects that are mutated and shared by reference live in a store:
      products are addressed by [ProductRef], and [===] on two products is
      equality of their references.  A reference always denotes an object,
      so the store is a total function.
    - A method is a state transformer over the state it can touch that ends
      normally or by [throw]; what was mutated before a [throw] stays
      mutated.
    - [console.log] appends a line to the console of the world.  *)

From Stdlib Require Import String ZArith QArith Qround Lqa Lia Bool List.
From Stdlib Require PrimFloat FloatOps SpecFloat.
Import ListNotations.

Open Scope Q_scope.

(** ** Numbers *)

(** [x < y] on two numbers, as a boolean. *)
Definition Qltb (x y : Q) : bool := negb (Qle_bool y x).

(** [x > y] on two numbers, as a boolean. *)
Definition Qgtb (x y : Q) : bool := Qltb y x.

Module Math.

(** [Math.ceil]. *)
Definition ceil (x : Q) : Q := inject_Z (Qceiling x).

(** [Math.round]: the nearest integer, a tie going up. *)
Definition round (x : Q) : Z := Qfloor (x + (1 # 2)).

End Math.

(** [x.toFixed(digits)]: the sign is set aside, the magnitude is rounded
    to [digits] decimals, a tie going to the larger magnitude. *)
Definition toFixed (digits : positive) (x : Q) : Q :=
  let scale := (10 ^ digits)%positive in
  if Qltb x 0
  then - (Qfloor (- x * inject_Z (Zpos scale) + (1 # 2)) # scale)
  else Qfloor (x * inject_Z (Zpos scale) + (1 # 2)) # scale.

(** ** Errors: one constructor per [throw] of the source *)

Inductive Error : Type :=
| StockNotAvailable            (* Product.reduceQuantity *)
| BalanceTooLow                (* Customer.deductBalance *)
| ExceedsStock                 (* Cart.add, first guard *)
| TotalExceedsStock            (* Cart.add, guard on the merged quantity *)
| EmptyCart                    (* checkout *)
| ProductExpired (name : string)      (* checkout, validation loop *)
| InsufficientStock (name : string)   (* checkout, validation loop *)
| InsufficientBalance          (* checkout, after pricing *)
| TypeError.                   (* a method call on [undefined] *)

(** The message the [Error] object carries. *)
Definition message (e : Error) : string :=
  match e with
  | StockNotAvailable => "Not enough stock available"
  | BalanceTooLow => "Insufficient balance"
  | ExceedsStock => "Requested quantity exceeds available stock"
  | TotalExceedsStock => "Total quantity in cart exceeds available stock"
  | EmptyCart => "Cart is empty"
  | ProductExpired name => "Product " ++ name ++ " is expired"
  | InsufficientStock name => "Product " ++ name ++ " is out of stock"
  | InsufficientBalance => "Customer's balance is insufficient"
  | TypeError => "Cannot read properties of undefined"
  end%string.

(** ** Methods as state transformers that may throw *)

Inductive Completion (A : Type) : Type :=
| Normal (a : A)
| Throw (e : Error).

Arguments Normal {A} a.
Arguments Throw {A} e.

Definition M (S A : Type) : Type := S -> Completion A * S.

Definition ret {S A : Type} (a : A) : M S A := fun s => (Normal a, s).

Definition throw {S A : Type} (e : Error) : M S A := fun s => (Throw e, s).

Definition bind {S A B : Type} (m : M S A) (k : A -> M S B) : M S B :=
  fun s =>
    match m s with
    | (Normal a, s') => k a s'
    | (Throw e, s') => (Throw e, s')
    end.

Definition gets {S A : Type} (f : S -> A) : M S A := fun s => (Normal (f s), s).

Definition modify {S : Type} (f : S -> S) : M S unit := fun s => (Normal tt, f s).

Declare Scope method_scope.
Delimit Scope method_scope with method.
Notation "x <- m ;; k" := (bind m (fun x => k))
  (at level 61, m at next level, right associativity) : method_scope.
Notation "m ;; k" := (bind m (fun _ => k))
  (at level 61, right associativity) : method_scope.
Open Scope method_scope.

(** [for (const x of xs) body(x)]. *)
Fixpoint forEach {S A : Type} (body : A -> M S unit) (xs : list A) : M S unit :=
  match xs with
  | [] => ret tt
  | x :: xs' => body x ;; forEach body xs'
  end.

(** [try { body } catch (error) { handler(error) }]. *)
Definition tryCatch {S A : Type} (body : M S A) (handler : Error -> M S A) : M S A :=
  fun s =>
    match body s with
    | (Normal a, s') => (Normal a, s')
    | (Throw e, s') => handler e s'
    end.

(** ** Products *)

Module Product.

(** The two concrete subclasses of the abstract class. *)
Inductive Variant : Type :=
| ExpirableProduct (expiryDate : Z)
| NonExpirableProduct.

Record t : Type := make
  { name : string;
    price : Q;
    quantity : Q;
    variant : Variant;
    requiresShippingFlag : bool;
    weight : Q }.

Definition getName (this : t) : string := name this.
Definition getPrice (this : t) : Q := price this.
Definition getQuantity (this : t) : Q := quantity this.
Definition getWeight (this : t) : Q := weight this.

Definition setQuantity (q : Q) (this : t) : t :=
  {| name := name this;
     price := price this;
     quantity := q;
     variant := variant this;
     requiresShippingFlag := requiresShippingFlag this;
     weight := weight this |}.

Definition reduceQuantity (amount : Q) : M t unit :=
  fun this =>
    if Qgtb amount (quantity this)
    then throw StockNotAvailable this
    else modify (setQuantity (quantity this - amount)) this.

Definition isExpired (now : Z) (this : t) : bool :=
  match variant this with
  | ExpirableProduct expiryDate => (now >? expiryDate)%Z
  | NonExpirableProduct => false
  end.

Definition requiresShipping (this : t) : bool := requiresShippingFlag this.

End Product.

Definition ProductRef : Type := nat.

(** ** Cart items *)

Module CartItem.

Record t : Type := make
  { product : ProductRef;
    quantity : Q }.

Definition getProduct (this : t) : ProductRef := product this.
Definition getQuantity (this : t) : Q := quantity this.

End CartItem.

(** ** Customers *)

Module Customer.

Record t : Type := make
  { name : string;
    balance : Q }.

Definition getName (this : t) : string := name this.
Definition getBalance (this : t) : Q := balance this.

Definition setBalance (b : Q) (this : t) : t :=
  {| name := name this; balance := b |}.

Definition deductBalance (amount : Q) : M t unit :=
  fun this =>
    if Qgtb amount (balance this)
    then throw BalanceTooLow this
    else modify (setBalance (balance this - amount)) this.

End Customer.

(** ** Shipping *)

Module ShippableItem.

Record t : Type := make
  { name : string;
    weight : Q }.

Definition getName (this : t) : string := name this.
Definition getWeight (this : t) : Q := weight this.

End ShippableItem.

(** ** The console *)

Inductive Output : Type :=
| ShipmentNotice                                   (* ** Shipment notice ** *)
| ShipmentLine (name : string) (grams : Z)         (* name, weight in g *)
| TotalPackageWeight (kg : Q)                      (* one decimal *)
| CheckoutReceipt                                  (* ** Checkout receipt ** *)
| ReceiptLine (quantity : Q) (name : string) (total : Z)
| Separator
| SubtotalLine (amount : Z)
| ShippingLine (amount : Z)
| AmountLine (amount : Z)
| BalanceLine (balance : Q)                        (* two decimals *)
| ErrorLine (message : string).                    (* console.error *)

(** ** The world: every object the program can reach *)

Record World : Type := mkWorld
  { products : ProductRef -> Product.t;
    customer : Customer.t;
    cart : list CartItem.t;
    console : list Output }.

Definition setProducts (f : ProductRef -> Product.t) (w : World) : World :=
  {| products := f; customer := customer w; cart := cart w; console := console w |}.

Definition setCustomer (c : Customer.t) (w : World) : World :=
  {| products := products w; customer := c; cart := cart w; console := console w |}.

Definition setCart (items : list CartItem.t) (w : World) : World :=
  {| products := products w; customer := customer w; cart := items; console := console w |}.

Definition setConsole (out : list Output) (w : World) : World :=
  {| products := products w; customer := customer w; cart := cart w; console := out |}.

(** The store with the object at [r] replaced. *)
Definition update (r : ProductRef) (p : Product.t) (f : ProductRef -> Product.t)
  : ProductRef -> Product.t :=
  fun r' => if Nat.eqb r r' then p else f r'.

(** A method of the product at [r], run in the world. *)
Definition onProduct {A : Type} (r : ProductRef) (m : M Product.t A) : M World A :=
  fun w =>
    let (c, p') := m (products w r) in
    (c, setProducts (update r p' (products w)) w).

(** A method of the customer, run in the world. *)
Definition onCustomer {A : Type} (m : M Customer.t A) : M World A :=
  fun w =>
    let (c, c') := m (customer w) in
    (c, setCustomer c' w).

Definition log (line : Output) : M World unit :=
  modify (fun w => setConsole (console w ++ [line]) w).

(** [item.getTotalPrice()]: the price is read from the product as it is now. *)
Definition getTotalPrice (w : World) (item : CartItem.t) : Q :=
  Product.getPrice (products w (CartItem.getProduct item)) * CartItem.getQuantity item.

(** ** The cart *)

Module Cart.

(** [Array.prototype.findIndex]; [None] stands for the result [-1]. *)
Fixpoint findIndex (pred : CartItem.t -> bool) (items : list CartItem.t)
  : option nat :=
  match items with
  | [] => None
  | item :: rest =>
      if pred item then Some 0%nat else option_map S (findIndex pred rest)
  end.

(** [items[i] = x] for an index within the array (the only use the source
    makes of it); an index past the end leaves the list as it is. *)
Fixpoint assign (i : nat) (x : CartItem.t) (items : list CartItem.t)
  : list CartItem.t :=
  match items, i with
  | [], _ => []
  | _ :: rest, O => x :: rest
  | y :: rest, S i' => y :: assign i' x rest
  end.

Definition getItems : M World (list CartItem.t) := gets cart.

Definition isEmpty : M World bool :=
  gets (fun w => Nat.eqb (length (cart w)) 0).

Definition getSubtotal : M World Q :=
  gets (fun w => fold_left (fun sum item => sum + getTotalPrice w item) (cart w) 0).

Definition add (product : ProductRef) (quantity : Q) : M World unit :=
  stock <- gets (fun w => Product.getQuantity (products w product)) ;;
  if Qgtb quantity stock then throw ExceedsStock
  else
    items <- gets cart ;;
    match findIndex (fun item => Nat.eqb (CartItem.getProduct item) product) items with
    | Some existingItemIndex =>
        match nth_error items existingItemIndex with
        | Some existingItem =>
            let newQuantity := CartItem.getQuantity existingItem + quantity in
            stock' <- gets (fun w => Product.getQuantity (products w product)) ;;
            if Qgtb newQuantity stock' then throw TotalExceedsStock
            else
              modify (fun w =>
                setCart (assign existingItemIndex
                           (CartItem.make product newQuantity) (cart w)) w)
        | None => throw TypeError
        end
    | None =>
        modify (fun w => setCart (cart w ++ [CartItem.make product quantity]) w)
    end.

End Cart.

(** ** The shipping service *)

Module ShippingService.

Definition SHIPPING_RATE_PER_KG : Q := 30.

Definition totalWeightOf (items : list ShippableItem.t) : Q :=
  fold_left (fun sum item => sum + ShippableItem.getWeight item) items 0.

Definition calculateShippingFee (items : list ShippableItem.t) : M World Q :=
  if Nat.eqb (length items) 0 then ret 0
  else
    let totalWeight := totalWeightOf items in
    log ShipmentNotice ;;
    forEach
      (fun item =>
         log (ShipmentLine (ShippableItem.getName item)
                (Math.round (ShippableItem.getWeight item * 1000))))
      items ;;
    log (TotalPackageWeight (toFixed 1 totalWeight)) ;;
    ret (Math.ceil (totalWeight * SHIPPING_RATE_PER_KG)).

End ShippingService.

(** ** The checkout *)

Module ECommerceSystem.

(** The validation of one cart line. *)
Definition validateItem (now : Z) (item : CartItem.t) : M World unit :=
  product <- gets (fun w => products w (CartItem.getProduct item)) ;;
  if Product.isExpired now product
  then throw (ProductExpired (Product.getName product))
  else
    if Qltb (Product.getQuantity product) (CartItem.getQuantity item)
    then throw (InsufficientStock (Product.getName product))
    else ret tt.

(** The shippable items one cart line contributes.  The inner loop
    [for (let i = 0; i < item.getQuantity(); i++)] runs once for every
    natural number below the quantity. *)
Definition shippableItemsOfItem (w : World) (item : CartItem.t)
  : list ShippableItem.t :=
  let product := products w (CartItem.getProduct item) in
  if Product.requiresShipping product
  then
    let weight :=
      match Product.variant product with
      | Product.ExpirableProduct _ => Product.getWeight product
      | Product.NonExpirableProduct => Product.getWeight product
      end in
    repeat (ShippableItem.make (Product.getName product) weight)
           (Z.to_nat (Qceiling (CartItem.getQuantity item)))
  else [].

Definition collectShippableItems (items : list CartItem.t)
  : M World (list ShippableItem.t) :=
  gets (fun w => flat_map (shippableItemsOfItem w) items).

Definition printReceiptLine (item : CartItem.t) : M World unit :=
  product <- gets (fun w => products w (CartItem.getProduct item)) ;;
  total <- gets (fun w => getTotalPrice w item) ;;
  log (ReceiptLine (CartItem.getQuantity item) (Product.getName product)
         (Math.round total)).

Definition checkout (now : Z) : M World unit :=
  empty <- Cart.isEmpty ;;
  (if empty : bool then throw EmptyCart else ret tt) ;;
  (* Validate cart items *)
  items <- Cart.getItems ;;
  forEach (validateItem now) items ;;
  subtotal <- Cart.getSubtotal ;;
  (* Collect shippable items *)
  items <- Cart.getItems ;;
  shippableItems <- collectShippableItems items ;;
  shippingFees <- ShippingService.calculateShippingFee shippableItems ;;
  let totalAmount := subtotal + shippingFees in
  balance <- gets (fun w => Customer.getBalance (customer w)) ;;
  (if Qltb balance totalAmount then throw InsufficientBalance else ret tt) ;;
  (* Process payment and update inventory *)
  onCustomer (Customer.deductBalance totalAmount) ;;
  items <- Cart.getItems ;;
  forEach
    (fun item =>
       onProduct (CartItem.getProduct item)
         (Product.reduceQuantity (CartItem.getQuantity item)))
    items ;;
  (* Print receipt *)
  log CheckoutReceipt ;;
  items <- Cart.getItems ;;
  forEach printReceiptLine items ;;
  log Separator ;;
  log (SubtotalLine (Math.round subtotal)) ;;
  log (ShippingLine (Math.round shippingFees)) ;;
  log (AmountLine (Math.round totalAmount)) ;;
  balance' <- gets (fun w => Customer.getBalance (customer w)) ;;
  log (BalanceLine (toFixed 2 balance')).

End ECommerceSystem.

(** ** Notions the statements use *)

(** What [cart.getSubtotal()] returns in [w]. *)
Definition subtotalOf (w : World) : Q :=
  fold_left (fun sum item => sum + getTotalPrice w item) (cart w) 0.

(** The array of shippable items the checkout builds in [w]. *)
Definition shippableItemsOf (w : World) : list ShippableItem.t :=
  flat_map (ECommerceSystem.shippableItemsOfItem w) (cart w).

(** What [calculateShippingFee] returns. *)
Definition shippingFeeOf (items : list ShippableItem.t) : Q :=
  match items with
  | [] => 0
  | _ :: _ =>
      Math.ceil (ShippingService.totalWeightOf items
                 * ShippingService.SHIPPING_RATE_PER_KG)
  end.

(** What [calculateShippingFee] prints. *)
Definition shipmentNoticeOf (items : list ShippableItem.t) : list Output :=
  match items with
  | [] => []
  | _ :: _ =>
      ShipmentNotice
      :: map (fun item =>
                ShipmentLine (ShippableItem.getName item)
                  (Math.round (ShippableItem.getWeight item * 1000)))
             items
      ++ [TotalPackageWeight (toFixed 1 (ShippingService.totalWeightOf items))]
  end.

(** The amount the checkout charges in [w]. *)
Definition totalAmountOf (w : World) : Q :=
  subtotalOf w + shippingFeeOf (shippableItemsOf w).

(** A cart line passes the validation loop. *)
Definition validLine (now : Z) (w : World) (item : CartItem.t) : bool :=
  let product := products w (CartItem.getProduct item) in
  negb (Product.isExpired now product)
  && negb (Qltb (Product.getQuantity product) (CartItem.getQuantity item)).

(** The line of the cart that [add] finds for a product. *)
Definition lineOf (product : ProductRef) (items : list CartItem.t)
  : option CartItem.t :=
  find (fun item => Nat.eqb (CartItem.getProduct item) product) items.

(** The failures the checkout raises itself, before it mutates anything. *)
Definition beforeCommit (e : Error) : bool :=
  match e with
  | EmptyCart | ProductExpired _ | InsufficientStock _ | InsufficientBalance => true
  | _ => false
  end.

(** Two worlds with the same products, customer and cart. *)
Definition sameEntities (w w' : World) : Prop :=
  products w' = products w /\ customer w' = customer w /\ cart w' = cart w.

(** No stock and no balance below zero. *)
Definition nonNegative (w : World) : Prop :=
  0 <= Customer.balance (customer w)
  /\ forall r, 0 <= Product.quantity (products w r).

(** The receipt the checkout prints in the world [w] it has committed. *)
Definition receiptOf (subtotal shippingFees : Q) (w : World) : list Output :=
  CheckoutReceipt
  :: map (fun item =>
            ReceiptLine (CartItem.getQuantity item)
              (Product.getName (products w (CartItem.getProduct item)))
              (Math.round (getTotalPrice w item)))
         (cart w)
  ++ [Separator;
      SubtotalLine (Math.round subtotal);
      ShippingLine (Math.round shippingFees);
      AmountLine (Math.round (subtotal + shippingFees));
      BalanceLine (toFixed 2 (Customer.getBalance (customer w)))].

(** The body of the loop of the commit phase. *)
Definition reduceLine (item : CartItem.t) : M World unit :=
  onProduct (CartItem.getProduct item)
    (Product.reduceQuantity (CartItem.getQuantity item)).

(** The world after the shipment notice was printed. *)
Definition noticed (w w1 : World) : Prop :=
  sameEntities w w1
  /\ console w1 = console w ++ shipmentNoticeOf (shippableItemsOf w).

(** The world after the customer was debited. *)
Definition pay (w w1 : World) : World :=
  setCustomer
    (Customer.setBalance
       (Customer.balance (customer w) - totalAmountOf w) (customer w)) w1.

(** The ways a checkout that starts in [w] can end. *)
Inductive CheckoutOutcome (now : Z) (w : World) : Completion unit -> World -> Prop :=
| EndsEmpty :
    cart w = [] ->
    CheckoutOutcome now w (Throw EmptyCart) w
| EndsInvalid (e : Error) :
    cart w <> [] ->
    forEach (ECommerceSystem.validateItem now) (cart w) w = (Throw e, w) ->
    CheckoutOutcome now w (Throw e) w
| EndsUnpaid (w1 : World) :
    cart w <> [] ->
    forallb (validLine now w) (cart w) = true ->
    noticed w w1 ->
    Customer.balance (customer w) < totalAmountOf w ->
    CheckoutOutcome now w (Throw InsufficientBalance) w1
| EndsHalfway (w1 : World) (e : Error) (w3 : World) :
    cart w <> [] ->
    forallb (validLine now w) (cart w) = true ->
    noticed w w1 ->
    totalAmountOf w <= Customer.balance (customer w) ->
    forEach reduceLine (cart w) (pay w w1) = (Throw e, w3) ->
    CheckoutOutcome now w (Throw e) w3
| EndsCommitted (w1 w3 : World) :
    cart w <> [] ->
    forallb (validLine now w) (cart w) = true ->
    noticed w w1 ->
    totalAmountOf w <= Customer.balance (customer w) ->
    forEach reduceLine (cart w) (pay w w1) = (Normal tt, w3) ->
    CheckoutOutcome now w (Normal tt)
      (setConsole
         (console w3
          ++ receiptOf (subtotalOf w) (shippingFeeOf (shippableItemsOf w)) w3)
         w3).

(** ** Sample data *)

(** The products the source creates, [today] being the clock when it
    starts, and a placeholder for the references it does not use. *)
Definition day : Z := 86400000.

Definition cheese (today : Z) : Product.t :=
  Product.make "Cheese" 100 10 (Product.ExpirableProduct (today + 5 * day)) true 0.2.

Definition biscuits (today : Z) : Product.t :=
  Product.make "Biscuits" 150 15 (Product.ExpirableProduct (today + 30 * day)) true 0.7.

Definition tv : Product.t :=
  Product.make "TV" 500 5 Product.NonExpirableProduct true 15.

Definition scratchCard : Product.t :=
  Product.make "Mobile Scratch Card" 25 100 Product.NonExpirableProduct false 0.001.

Definition noProduct : Product.t :=
  Product.make "" 0 0 Product.NonExpirableProduct false 0.

Definition sampleProducts (today : Z) : ProductRef -> Product.t :=
  fun r =>
    match r with
    | 0%nat => cheese today
    | 1%nat => biscuits today
    | 2%nat => tv
    | 3%nat => scratchCard
    | _ => noProduct
    end.

(** The world of the source when it starts: John Doe and an empty cart. *)
Definition sampleWorld (today : Z) : World :=
  mkWorld (sampleProducts today) (Customer.make "John Doe" 1000) [] [].

(** The products of the end-to-end scenario: A does not ship, B weighs
    0.7 kg; [others] are the products the scenario does not mention. *)
Definition productA (weightA : Q) : Product.t :=
  Product.make "A" 100 10 Product.NonExpirableProduct false weightA.

Definition productB : Product.t :=
  Product.make "B" 150 15 Product.NonExpirableProduct true 0.7.

Definition scenarioProducts (weightA : Q) (others : ProductRef -> Product.t)
  : ProductRef -> Product.t :=
  fun r =>
    match r with
    | 0%nat => productA weightA
    | 1%nat => productB
    | _ => others r
    end.

(** The scenario with the cart A x 2, B x 1 and a given balance. *)
Definition scenario (balance : Q) (weightA : Q) (others : ProductRef -> Product.t)
  : World :=
  mkWorld (scenarioProducts weightA others) (Customer.make "Customer" balance)
    [CartItem.make 0%nat 2; CartItem.make 1%nat 1] [].

(** The program the source runs on these products: three calls of [add]
    and the checkout, an error being printed.  [withTV] is the program
    with the line [cart.add(tv, 3)] that the source has in a comment. *)
Definition main (withTV : bool) (now : Z) : M World unit :=
  tryCatch
    (Cart.add 0%nat 2 ;;
     (if withTV then Cart.add 2%nat 3 else ret tt) ;;
     Cart.add 1%nat 1 ;;
     Cart.add 3%nat 1 ;;
     ECommerceSystem.checkout now)
    (fun error => log (ErrorLine (message error))).


(** ** Notions for the further properties *)

(** The sum of a list of numbers. *)
Definition Qsum (xs : list Q) : Q := fold_right Qplus 0 xs.

(** Every line of the cart asks for at most the stock of its product. *)
Definition withinStock (w : World) : Prop :=
  Forall (fun item =>
            CartItem.getQuantity item
            <= Product.getQuantity (products w (CartItem.getProduct item)))
         (cart w).



(** No price, no weight and no quantity in the cart is negative. *)
Definition nonNegativeData (w : World) : Prop :=
  (forall r, 0 <= Product.price (products w r) /\ 0 <= Product.weight (products w r))
  /\ Forall (fun item => 0 <= CartItem.getQuantity item) (cart w).

(** The products of the source with the expiry dates as parameters, and
    the world the program starts in. *)
Definition catalogue (cheeseExpiry biscuitsExpiry : Z) : ProductRef -> Product.t :=
  fun r =>
    match r with
    | 0%nat =>
        Product.make "Cheese" 100 10 (Product.ExpirableProduct cheeseExpiry) true 0.2
    | 1%nat =>
        Product.make "Biscuits" 150 15 (Product.ExpirableProduct biscuitsExpiry) true 0.7
    | 2%nat => tv
    | 3%nat => scratchCard
    | _ => noProduct
    end.

Definition startWorld (cheeseExpiry biscuitsExpiry : Z) : World :=
  mkWorld (catalogue cheeseExpiry biscuitsExpiry) (Customer.make "John Doe" 1000) [] [].

(** The stock apart, the products of [w'] are those of [w]. *)
Definition sameButStock (w w' : World) : Prop :=
  forall r, products w' r
            = Product.setQuantity (Product.quantity (products w' r)) (products w r).


(** Calls of [add] in a row, as in the program of the source: the first
    that fails ends the run. *)
Definition addEach (requests : list (ProductRef * Q)) : M World unit :=
  forEach (fun request => Cart.add (fst request) (snd request)) requests.

(** ** The shipping fee on the doubles of the source *)

(** The numbers of the source are binary64 doubles: a sum and a product
    are rounded.  The value the shipping service returns is embedded
    here on the doubles, with the addition and the multiplication of
    binary64; what the service prints in between does not bear on it. *)
Module Float64.
Import PrimFloat.

(** The rational number a double denotes, in lowest terms; none for NaN
    and the infinities. *)
Definition valueOf (x : float) : option Q :=
  match FloatOps.Prim2SF x with
  | SpecFloat.S754_zero _ => Some 0
  | SpecFloat.S754_finite negative mantissa exponent =>
      Some (Qred ((if negative
                   then - inject_Z (Zpos mantissa)
                   else inject_Z (Zpos mantissa)) * 2 ^ exponent))
  | SpecFloat.S754_infinity _ => None
  | SpecFloat.S754_nan => None
  end.

Module Math.

(** [Math.ceil], as the integer it returns: the least integer that is
    not below the argument.  It is none for NaN and the infinities,
    which [Math.ceil] returns as they are. *)
Definition ceil (x : float) : option Z := option_map Qceiling (valueOf x).

End Math.

Module ShippableItem.

Record t : Type := make
  { name : string;
    weight : float }.

Definition getName (this : t) : string := name this.
Definition getWeight (this : t) : float := weight this.

End ShippableItem.

Module ShippingService.

Definition SHIPPING_RATE_PER_KG : float := 30%float.

Definition totalWeightOf (items : list ShippableItem.t) : float :=
  fold_left (fun sum item => (sum + ShippableItem.getWeight item)%float) items 0%float.

Definition calculateShippingFee (items : list ShippableItem.t) : option Z :=
  if Nat.eqb (length items) 0 then Some 0%Z
  else Math.ceil (totalWeightOf items * SHIPPING_RATE_PER_KG)%float.

End ShippingService.

(** The doubles that the literals 0.1, 0.2, 0.3, 0.7 and 15 denote. *)
Definition tenth : float := 0x1.999999999999ap-4%float.
Definition fifth : float := 0x1.999999999999ap-3%float.
Definition threeTenths : float := 0x1.3333333333333p-2%float.
Definition sevenTenths : float := 0x1.6666666666666p-1%float.
Definition fifteen : float := 15%float.

End Float64.

(** * Properties *)

(** ** Comparisons *)

Lemma Qltb_true (x y : Q) : Qltb x y = true <-> x < y.
Proof.
  unfold Qltb. rewrite negb_true_iff, <- not_true_iff_false, Qle_bool_iff.
  split; intro H; [apply Qnot_le_lt | apply Qlt_not_le]; exact H.
Qed.

Lemma Qltb_false (x y : Q) : Qltb x y = false <-> y <= x.
Proof.
  unfold Qltb. rewrite negb_false_iff. apply Qle_bool_iff.
Qed.

Lemma Qgtb_true (x y : Q) : Qgtb x y = true <-> y < x.
Proof. apply Qltb_true. Qed.

Lemma Qgtb_false (x y : Q) : Qgtb x y = false <-> x <= y.
Proof. apply Qltb_false. Qed.

(** ** Loops that only print *)

Lemma sameEntities_refl (w : World) : sameEntities w w.
Proof. repeat split. Qed.

Lemma log_run (line : Output) (w : World) :
  log line w = (Normal tt, setConsole (console w ++ [line]) w).
Proof. reflexivity. Qed.

Lemma forEach_log {A : Type} (body : A -> M World unit) (f : World -> A -> Output) :
  (forall x w, body x w = (Normal tt, setConsole (console w ++ [f w x]) w)) ->
  (forall out w x, f (setConsole out w) x = f w x) ->
  forall xs w,
    forEach body xs w = (Normal tt, setConsole (console w ++ map (f w) xs) w).
Proof.
  intros Hbody Hf. induction xs as [|x xs IH]; intros w; simpl.
  - unfold ret. rewrite app_nil_r. destruct w; reflexivity.
  - unfold bind. rewrite Hbody, IH. simpl.
    rewrite <- app_assoc. simpl.
    rewrite (map_ext _ _ (fun a => Hf (console w ++ [f w x]) w a)).
    reflexivity.
Qed.

(** ** The shipping fee *)

Lemma calculateShippingFee_run (items : list ShippableItem.t) (w : World) :
  exists w',
    ShippingService.calculateShippingFee items w = (Normal (shippingFeeOf items), w')
    /\ sameEntities w w'
    /\ console w' = console w ++ shipmentNoticeOf items.
Proof.
  destruct items as [|item items].
  - exists w. simpl. rewrite app_nil_r. auto using sameEntities_refl.
  - unfold ShippingService.calculateShippingFee.
    cbv beta iota delta [length Nat.eqb].
    unfold bind at 1. rewrite log_run.
    unfold bind at 1.
    rewrite (forEach_log _
               (fun _ x => ShipmentLine (ShippableItem.getName x)
                             (Math.round (ShippableItem.getWeight x * 1000))))
      by reflexivity.
    unfold bind, ret. rewrite log_run.
    eexists. split; [reflexivity|]. split; [repeat split|].
    cbn [console setConsole shipmentNoticeOf].
    rewrite <- !app_assoc. reflexivity.
Qed.

(** ** The validation loop *)

Lemma validateItem_run (now : Z) (item : CartItem.t) (w : World) :
  ECommerceSystem.validateItem now item w =
  let product := products w (CartItem.getProduct item) in
  if Product.isExpired now product
  then (Throw (ProductExpired (Product.getName product)), w)
  else if Qltb (Product.getQuantity product) (CartItem.getQuantity item)
       then (Throw (InsufficientStock (Product.getName product)), w)
       else (Normal tt, w).
Proof.
  unfold ECommerceSystem.validateItem, bind, gets. cbv zeta.
  destruct (Product.isExpired now _); [reflexivity|].
  destruct (Qltb _ _); reflexivity.
Qed.

Lemma validateItem_valid (now : Z) (item : CartItem.t) (w : World) :
  validLine now w item = true ->
  ECommerceSystem.validateItem now item w = (Normal tt, w).
Proof.
  unfold validLine. rewrite validateItem_run. cbv zeta.
  rewrite andb_true_iff, !negb_true_iff. intros [-> ->]. reflexivity.
Qed.

Lemma validation_state (now : Z) (items : list CartItem.t) (w : World) :
  snd (forEach (ECommerceSystem.validateItem now) items w) = w.
Proof.
  induction items as [|item items IH]; simpl; [reflexivity|].
  unfold bind. rewrite validateItem_run. cbv zeta.
  destruct (Product.isExpired now _); [reflexivity|].
  destruct (Qltb _ _); [reflexivity|]. exact IH.
Qed.

Lemma validation_passes (now : Z) (items : list CartItem.t) (w : World) :
  forallb (validLine now w) items = true <->
  forEach (ECommerceSystem.validateItem now) items w = (Normal tt, w).
Proof.
  induction items as [|item items IH]; simpl.
  - unfold ret. tauto.
  - unfold bind. rewrite andb_true_iff, IH.
    destruct (validLine now w item) eqn:V.
    + rewrite (validateItem_valid _ _ _ V). tauto.
    + split; [intros [? _]; discriminate|].
      rewrite validateItem_run. unfold validLine in V. cbv zeta in *.
      destruct (Product.isExpired now _); [discriminate|].
      destruct (Qltb _ _); [discriminate|]. discriminate.
Qed.

Lemma validation_first_offender (now : Z) (pre post : list CartItem.t)
      (item : CartItem.t) (w : World) :
  forallb (validLine now w) pre = true ->
  forEach (ECommerceSystem.validateItem now) (pre ++ item :: post) w =
  match ECommerceSystem.validateItem now item w with
  | (Normal _, _) => forEach (ECommerceSystem.validateItem now) post w
  | (Throw e, _) => (Throw e, w)
  end.
Proof.
  induction pre as [|x pre IH]; simpl.
  - intros _. unfold bind.
    pose proof (validateItem_run now item w) as R. cbv zeta in R.
    destruct (Product.isExpired now _); [rewrite R; reflexivity|].
    destruct (Qltb _ _); rewrite R; reflexivity.
  - rewrite andb_true_iff. intros [V Hpre].
    unfold bind at 1. rewrite (validateItem_valid _ _ _ V). auto.
Qed.

(** ** The loop that reduces the stock *)


Lemma update_same (r : ProductRef) (p : Product.t) (f : ProductRef -> Product.t) :
  update r p f r = p.
Proof. unfold update. rewrite Nat.eqb_refl. reflexivity. Qed.

Lemma update_other (r r' : ProductRef) (p : Product.t) (f : ProductRef -> Product.t) :
  r <> r' -> update r p f r' = f r'.
Proof.
  intros H. unfold update. destruct (Nat.eqb_spec r r'); [contradiction|reflexivity].
Qed.

Lemma update_unchanged (r r' : ProductRef) (f : ProductRef -> Product.t) :
  update r (f r) f r' = f r'.
Proof.
  unfold update. destruct (Nat.eqb_spec r r'); [subst|]; reflexivity.
Qed.

Lemma setQuantity_quantity (p : Product.t) :
  Product.setQuantity (Product.quantity p) p = p.
Proof. destruct p; reflexivity. Qed.

Lemma reduceLine_run (item : CartItem.t) (w : World) :
  reduceLine item w =
  let r := CartItem.getProduct item in
  let p := products w r in
  if Qgtb (CartItem.getQuantity item) (Product.quantity p)
  then (Throw StockNotAvailable, setProducts (update r p (products w)) w)
  else (Normal tt,
        setProducts
          (update r (Product.setQuantity
                       (Product.quantity p - CartItem.getQuantity item) p)
                  (products w)) w).
Proof.
  unfold reduceLine, onProduct, Product.reduceQuantity. cbv zeta.
  destruct (Qgtb _ _); reflexivity.
Qed.

Lemma reduction_frame (items : list CartItem.t) :
  forall w c w',
    forEach reduceLine items w = (c, w') ->
    customer w' = customer w /\ cart w' = cart w /\ console w' = console w
    /\ (forall r, products w' r
                  = Product.setQuantity (Product.quantity (products w' r))
                      (products w r))
    /\ (forall r, ~ In r (map CartItem.getProduct items) ->
                  products w' r = products w r).
Proof.
  induction items as [|item items IH]; intros w c w'; simpl.
  - unfold ret. intros [= <- <-].
    repeat split; auto using eq_sym, setQuantity_quantity.
  - unfold bind. rewrite reduceLine_run. cbv zeta.
    destruct (Qgtb _ _).
    + intros [= <- <-]. cbn [products customer cart console setProducts].
      repeat split; intros; rewrite update_unchanged;
        auto using eq_sym, setQuantity_quantity.
    + intros H. apply IH in H.
      cbn [products customer cart console setProducts] in H.
      destruct H as (Hc & Hk & Ho & Hp & Hu).
      repeat split; auto.
      * intros r. rewrite (Hp r) at 1.
        unfold update. destruct (Nat.eqb_spec (CartItem.getProduct item) r);
          [subst r|]; reflexivity.
      * intros r Hr. rewrite Hu by tauto. apply update_other. tauto.
Qed.

Lemma reduction_nonneg (items : list CartItem.t) :
  forall w c w',
    forEach reduceLine items w = (c, w') ->
    (forall r, 0 <= Product.quantity (products w r)) ->
    forall r, 0 <= Product.quantity (products w' r).
Proof.
  induction items as [|item items IH]; intros w c w'; simpl.
  - unfold ret. intros [= <- <-]. auto.
  - unfold bind. rewrite reduceLine_run. cbv zeta.
    destruct (Qgtb _ _) eqn:G.
    + intros [= <- <-] Hw r. cbn [products setProducts].
      rewrite update_unchanged. apply Hw.
    + intros H Hw. apply (IH _ _ _ H). intros r.
      cbn [products setProducts]. unfold update.
      destruct (Nat.eqb_spec (CartItem.getProduct item) r); [|apply Hw].
      apply Qgtb_false in G. cbn [Product.quantity Product.setQuantity].
      lra.
Qed.

Lemma reduction_stock (items : list CartItem.t) :
  forall w w',
    NoDup (map CartItem.getProduct items) ->
    forEach reduceLine items w = (Normal tt, w') ->
    forall item, In item items ->
      Product.quantity (products w' (CartItem.getProduct item))
      = Product.quantity (products w (CartItem.getProduct item))
        - CartItem.getQuantity item.
Proof.
  induction items as [|x items IH]; intros w w' ND; simpl; [tauto|].
  inversion ND as [|? ? Hx ND']; subst.
  unfold bind. rewrite reduceLine_run. cbv zeta.
  destruct (Qgtb _ _); [discriminate|].
  intros H item [<-|Hin].
  - destruct (reduction_frame _ _ _ _ H) as (_ & _ & _ & _ & Hu).
    rewrite (Hu _ Hx). cbn [products setProducts].
    rewrite update_same. reflexivity.
  - rewrite (IH _ _ ND' H item Hin). cbn [products setProducts].
    rewrite update_other; [reflexivity|].
    intros E. apply Hx. rewrite E. apply in_map. exact Hin.
Qed.

Lemma reduction_succeeds (now : Z) (items : list CartItem.t) :
  forall w,
    NoDup (map CartItem.getProduct items) ->
    forallb (validLine now w) items = true ->
    exists w', forEach reduceLine items w = (Normal tt, w').
Proof.
  induction items as [|x items IH]; intros w ND; simpl.
  - intros _. exists w. reflexivity.
  - inversion ND as [|? ? Hx ND']; subst.
    rewrite andb_true_iff. intros [V Hrest].
    unfold bind. rewrite reduceLine_run. cbv zeta.
    unfold validLine in V. cbv zeta in V.
    apply andb_true_iff in V. destruct V as [_ V].
    apply negb_true_iff in V.
    unfold Qgtb, Product.getQuantity in *. rewrite V.
    apply IH; [exact ND'|].
    rewrite forallb_forall in *. intros item Hin.
    rewrite <- (Hrest item Hin). unfold validLine.
    cbn [products setProducts]. rewrite update_other; [reflexivity|].
    intros E. apply Hx. rewrite E. apply in_map. exact Hin.
Qed.

(** ** The checkout, phase by phase *)

Lemma printReceipt_run (items : list CartItem.t) (w : World) :
  forEach ECommerceSystem.printReceiptLine items w
  = (Normal tt,
     setConsole
       (console w
        ++ map (fun item =>
                  ReceiptLine (CartItem.getQuantity item)
                    (Product.getName (products w (CartItem.getProduct item)))
                    (Math.round (getTotalPrice w item)))
               items) w).
Proof.
  apply (forEach_log ECommerceSystem.printReceiptLine
           (fun w item =>
              ReceiptLine (CartItem.getQuantity item)
                (Product.getName (products w (CartItem.getProduct item)))
                (Math.round (getTotalPrice w item)))); reflexivity.
Qed.

Lemma checkout_run (now : Z) (w : World) :
  ECommerceSystem.checkout now w =
  match cart w with
  | [] => (Throw EmptyCart, w)
  | _ :: _ =>
      match fst (forEach (ECommerceSystem.validateItem now) (cart w) w) with
      | Throw e => (Throw e, w)
      | Normal _ =>
          let subtotal := subtotalOf w in
          let shippingFees := shippingFeeOf (shippableItemsOf w) in
          let w1 :=
            snd (ShippingService.calculateShippingFee (shippableItemsOf w) w) in
          if Qltb (Customer.balance (customer w1)) (subtotal + shippingFees)
          then (Throw InsufficientBalance, w1)
          else
            let paid :=
              Customer.setBalance
                (Customer.balance (customer w1) - (subtotal + shippingFees))
                (customer w1) in
            match forEach reduceLine (cart w1) (setCustomer paid w1) with
            | (Throw e, w3) => (Throw e, w3)
            | (Normal _, w3) =>
                (Normal tt,
                 setConsole (console w3 ++ receiptOf subtotal shippingFees w3) w3)
            end
      end
  end.
Proof.
  unfold ECommerceSystem.checkout.
  unfold bind at 1. unfold Cart.isEmpty at 1, gets at 1.
  destruct (cart w) as [|item items] eqn:Ecart; [reflexivity|].
  cbn [length Nat.eqb]. unfold bind at 1, ret at 1.
  unfold bind at 1, Cart.getItems at 1, gets at 1.
  unfold bind at 1. rewrite Ecart.
  pose proof (validation_state now (item :: items) w) as Hs.
  destruct (forEach (ECommerceSystem.validateItem now) (item :: items) w)
    as [[[]|e] ws]; simpl in Hs; subst ws; [|reflexivity].
  cbn [fst].
  unfold bind at 1, Cart.getSubtotal at 1, gets at 1.
  unfold bind at 1, Cart.getItems at 1, gets at 1.
  unfold bind at 1, ECommerceSystem.collectShippableItems at 1, gets at 1.
  fold (subtotalOf w). rewrite Ecart. rewrite <- Ecart at 1. fold (shippableItemsOf w).
  unfold bind at 1.
  destruct (calculateShippingFee_run (shippableItemsOf w) w)
    as (w1 & -> & (Hp & Hc & Hk) & Ho).
  cbn [snd]. cbv zeta.
  unfold bind at 1, gets at 1. unfold Customer.getBalance at 1.
  unfold bind at 1.
  destruct (Qltb (Customer.balance (customer w1)) _) eqn:B; [reflexivity|].
  unfold ret at 1.
  unfold bind at 1, onCustomer at 1, Customer.deductBalance at 1.
  unfold Qgtb. rewrite B. unfold modify at 1.
  unfold bind at 1, Cart.getItems at 1, gets at 1.
  cbn [cart setCustomer]. unfold bind at 1.
  change (fun item0 : CartItem.t =>
            onProduct (CartItem.getProduct item0)
              (Product.reduceQuantity (CartItem.getQuantity item0)))
    with reduceLine.
  destruct (forEach reduceLine (cart w1) _) as [[[]|e] w3] eqn:R; [|reflexivity].
  unfold bind at 1. rewrite log_run.
  unfold bind at 1, Cart.getItems at 1, gets at 1.
  unfold bind at 1.
  cbn [cart setConsole]. rewrite printReceipt_run.
  unfold bind, gets. rewrite !log_run.
  cbn [console setConsole customer products]. unfold receiptOf.
  rewrite <- !app_assoc. reflexivity.
Qed.


Lemma checkout_outcome (now : Z) (w : World) :
  CheckoutOutcome now w (fst (ECommerceSystem.checkout now w))
                        (snd (ECommerceSystem.checkout now w)).
Proof.
  rewrite checkout_run.
  destruct (cart w) as [|item items] eqn:Ecart.
  - apply EndsEmpty. exact Ecart.
  - assert (Hne : cart w <> []) by (rewrite Ecart; discriminate).
    rewrite <- Ecart in *. clear Ecart item items.
    pose proof (validation_state now (cart w) w) as Hs.
    destruct (forEach (ECommerceSystem.validateItem now) (cart w) w)
      as [[[]|e] ws] eqn:V; simpl in Hs; subst ws; cbn [fst].
    + apply validation_passes in V. cbv zeta.
      destruct (calculateShippingFee_run (shippableItemsOf w) w)
        as (w1 & -> & (Hp & Hc & Hk) & Ho).
      cbn [snd]. rewrite Hc, Hk.
      assert (N : noticed w w1) by (repeat split; assumption).
      destruct (Qltb _ _) eqn:B.
      * apply Qltb_true in B. cbn [fst snd].
        apply EndsUnpaid; assumption.
      * apply Qltb_false in B.
        change (setCustomer _ w1) with (pay w w1).
        destruct (forEach reduceLine (cart w) (pay w w1)) as [[[]|e] w3] eqn:R;
          cbn [fst snd].
        -- eapply EndsCommitted; eassumption.
        -- eapply EndsHalfway; eassumption.
    + apply EndsInvalid; assumption.
Qed.

Lemma checkout_outcome_of (now : Z) (w : World) (c : Completion unit) (w' : World) :
  ECommerceSystem.checkout now w = (c, w') -> CheckoutOutcome now w c w'.
Proof.
  intros H. pose proof (checkout_outcome now w) as O.
  rewrite H in O. exact O.
Qed.

Lemma validation_error (now : Z) (items : list CartItem.t) (w w' : World) (e : Error) :
  forEach (ECommerceSystem.validateItem now) items w = (Throw e, w') ->
  exists item,
    In item items
    /\ (e = ProductExpired (Product.getName (products w (CartItem.getProduct item)))
        \/ e = InsufficientStock
                 (Product.getName (products w (CartItem.getProduct item)))).
Proof.
  induction items as [|x items IH]; simpl; [discriminate|].
  unfold bind. rewrite validateItem_run. cbv zeta.
  destruct (Product.isExpired now _).
  - intros [= <- <-]. exists x. auto.
  - destruct (Qltb _ _).
    + intros [= <- <-]. exists x. auto.
    + intros H. destruct (IH H) as (item & Hin & He). exists item. auto.
Qed.

Lemma reduction_error (items : list CartItem.t) :
  forall w w' e,
    forEach reduceLine items w = (Throw e, w') -> e = StockNotAvailable.
Proof.
  induction items as [|x items IH]; intros w w' e; simpl; [discriminate|].
  unfold bind. rewrite reduceLine_run. cbv zeta.
  destruct (Qgtb _ _); [intros [= <- _]; reflexivity|apply IH].
Qed.

(** ** The calls of [add] *)

Lemma findIndex_None (pred : CartItem.t -> bool) (items : list CartItem.t) :
  Cart.findIndex pred items = None <-> find pred items = None.
Proof.
  induction items as [|y items IH]; simpl; [tauto|].
  destruct (pred y); [split; discriminate|].
  rewrite <- IH. destruct (Cart.findIndex pred items); simpl; split;
    (discriminate || reflexivity).
Qed.

Lemma nth_error_middle (pre post : list CartItem.t) (x : CartItem.t) :
  nth_error (pre ++ x :: post) (length pre) = Some x.
Proof. induction pre; simpl; auto. Qed.

Lemma assign_middle (pre post : list CartItem.t) (x y : CartItem.t) :
  Cart.assign (length pre) y (pre ++ x :: post) = pre ++ y :: post.
Proof. induction pre as [|z pre IH]; simpl; [|rewrite IH]; reflexivity. Qed.

(** The line [add] finds, where it is, and what the cart is once the
    line is replaced. *)
Lemma lineOf_Some (product : ProductRef) (items : list CartItem.t)
      (existing : CartItem.t) :
  lineOf product items = Some existing ->
  exists pre post,
    items = pre ++ existing :: post
    /\ lineOf product pre = None
    /\ CartItem.getProduct existing = product
    /\ Cart.findIndex (fun item => Nat.eqb (CartItem.getProduct item) product) items
       = Some (length pre).
Proof.
  unfold lineOf.
  induction items as [|y items IH]; simpl; [discriminate|].
  destruct (Nat.eqb_spec (CartItem.getProduct y) product) as [E|E].
  - intros [= <-]. exists [], items. auto.
  - intros H. destruct (IH H) as (pre & post & -> & N & P & F).
    exists (y :: pre), post. simpl.
    destruct (Nat.eqb_spec (CartItem.getProduct y) product); [contradiction|].
    rewrite F. auto.
Qed.

Lemma add_run (product : ProductRef) (quantity : Q) (w : World) :
  Cart.add product quantity w =
  let stock := Product.getQuantity (products w product) in
  if Qgtb quantity stock then (Throw ExceedsStock, w)
  else
    match lineOf product (cart w) with
    | Some existing =>
        if Qgtb (CartItem.getQuantity existing + quantity) stock
        then (Throw TotalExceedsStock, w)
        else
          match Cart.findIndex
                  (fun item => Nat.eqb (CartItem.getProduct item) product) (cart w)
          with
          | Some i =>
              (Normal tt,
               setCart
                 (Cart.assign i
                    (CartItem.make product (CartItem.getQuantity existing + quantity))
                    (cart w)) w)
          | None => (Throw TypeError, w)
          end
    | None => (Normal tt, setCart (cart w ++ [CartItem.make product quantity]) w)
    end.
Proof.
  unfold Cart.add. unfold bind at 1, gets at 1. cbv zeta.
  destruct (Qgtb quantity _); [reflexivity|].
  unfold bind at 1, gets at 1.
  destruct (lineOf product (cart w)) as [existing|] eqn:L.
  - destruct (lineOf_Some _ _ _ L) as (pre & post & E & _ & _ & F).
    rewrite F, E, nth_error_middle.
    unfold bind, gets. destruct (Qgtb _ _); [reflexivity|].
    unfold modify. rewrite E. reflexivity.
  - apply findIndex_None in L. rewrite L. reflexivity.
Qed.

Lemma lineOf_middle (product : ProductRef) (pre post : list CartItem.t)
      (existing : CartItem.t) :
  lineOf product pre = None ->
  CartItem.getProduct existing = product ->
  lineOf product (pre ++ existing :: post) = Some existing
  /\ Cart.findIndex (fun item => Nat.eqb (CartItem.getProduct item) product)
       (pre ++ existing :: post) = Some (length pre).
Proof.
  unfold lineOf. intros N E.
  induction pre as [|y pre IH]; simpl in *.
  - rewrite E, Nat.eqb_refl. auto.
  - destruct (Nat.eqb (CartItem.getProduct y) product); [discriminate|].
    destruct (IH N) as [-> ->]. auto.
Qed.

Lemma lineOf_None_filter (product : ProductRef) (items : list CartItem.t) :
  lineOf product items = None ->
  filter (fun item => Nat.eqb (CartItem.getProduct item) product) items = [].
Proof.
  unfold lineOf. induction items as [|y items IH]; simpl; [reflexivity|].
  destruct (Nat.eqb (CartItem.getProduct y) product); [discriminate|exact IH].
Qed.

Lemma add_appends (product : ProductRef) (quantity : Q) (w : World) :
  lineOf product (cart w) = None ->
  quantity <= Product.getQuantity (products w product) ->
  Cart.add product quantity w
  = (Normal tt, setCart (cart w ++ [CartItem.make product quantity]) w).
Proof.
  intros L S. rewrite add_run. cbv zeta.
  apply Qgtb_false in S. rewrite S, L. reflexivity.
Qed.

Lemma add_merges (product : ProductRef) (quantity : Q) (w : World)
      (pre post : list CartItem.t) (existing : CartItem.t) :
  cart w = pre ++ existing :: post ->
  lineOf product pre = None ->
  CartItem.getProduct existing = product ->
  quantity <= Product.getQuantity (products w product) ->
  CartItem.getQuantity existing + quantity
  <= Product.getQuantity (products w product) ->
  Cart.add product quantity w
  = (Normal tt,
     setCart (pre ++ CartItem.make product (CartItem.getQuantity existing + quantity)
                  :: post) w).
Proof.
  intros E N P S T. rewrite add_run. cbv zeta.
  apply Qgtb_false in S. apply Qgtb_false in T.
  destruct (lineOf_middle product pre post existing N P) as [L F].
  rewrite S, E, L, T, F, assign_middle. reflexivity.
Qed.

Lemma add_twice (product : ProductRef) (q1 q2 : Q) (w : World) :
  lineOf product (cart w) = None ->
  (Cart.add product q1 ;; Cart.add product q2) w =
  let stock := Product.getQuantity (products w product) in
  let w1 := setCart (cart w ++ [CartItem.make product q1]) w in
  if Qgtb q1 stock then (Throw ExceedsStock, w)
  else if Qgtb q2 stock then (Throw ExceedsStock, w1)
  else if Qgtb (q1 + q2) stock then (Throw TotalExceedsStock, w1)
  else (Normal tt, setCart (cart w ++ [CartItem.make product (q1 + q2)]) w).
Proof.
  intros L. unfold bind. rewrite add_run. cbv zeta. rewrite L.
  destruct (Qgtb q1 _); [reflexivity|].
  rewrite add_run. cbv zeta. cbn [products cart setCart].
  destruct (Qgtb q2 _); [reflexivity|].
  destruct (lineOf_middle product (cart w) [] (CartItem.make product q1) L eq_refl)
    as [-> ->].
  cbn [CartItem.getQuantity CartItem.quantity].
  destruct (Qgtb (q1 + q2) _); [reflexivity|].
  rewrite assign_middle. reflexivity.
Qed.

Lemma subtotal_after_append (w : World) (item : CartItem.t) :
  subtotalOf (setCart (cart w ++ [item]) w)
  = subtotalOf w + getTotalPrice w item.
Proof.
  unfold subtotalOf. cbn [cart setCart]. rewrite fold_left_app. reflexivity.
Qed.

(** The four ways a call of [add] ends. *)
Lemma add_cases (product : ProductRef) (quantity : Q) (w : World) :
  let stock := Product.getQuantity (products w product) in
  (stock < quantity
   /\ Cart.add product quantity w = (Throw ExceedsStock, w))
  \/ (quantity <= stock /\ lineOf product (cart w) = None
      /\ Cart.add product quantity w
         = (Normal tt, setCart (cart w ++ [CartItem.make product quantity]) w))
  \/ (quantity <= stock
      /\ exists existing,
           lineOf product (cart w) = Some existing
           /\ stock < CartItem.getQuantity existing + quantity
           /\ Cart.add product quantity w = (Throw TotalExceedsStock, w))
  \/ (quantity <= stock
      /\ exists existing pre post,
           lineOf product (cart w) = Some existing
           /\ cart w = pre ++ existing :: post
           /\ lineOf product pre = None
           /\ CartItem.getQuantity existing + quantity <= stock
           /\ Cart.add product quantity w
              = (Normal tt,
                 setCart
                   (pre ++ CartItem.make product
                             (CartItem.getQuantity existing + quantity) :: post) w)).
Proof.
  cbv zeta.
  destruct (Qgtb quantity (Product.getQuantity (products w product))) eqn:G.
  - left. split; [apply Qgtb_true; exact G|].
    rewrite add_run. cbv zeta. rewrite G. reflexivity.
  - right. pose proof (proj1 (Qgtb_false _ _) G) as S.
    destruct (lineOf product (cart w)) as [existing|] eqn:L.
    + right.
      destruct (Qgtb (CartItem.getQuantity existing + quantity)
                  (Product.getQuantity (products w product))) eqn:T.
      * left. split; [exact S|]. exists existing.
        split; [reflexivity|]. split; [apply Qgtb_true; exact T|].
        rewrite add_run. cbv zeta. rewrite G, L, T. reflexivity.
      * right. split; [exact S|].
        destruct (lineOf_Some _ _ _ L) as (pre & post & E & N & P & _).
        apply Qgtb_false in T.
        exists existing, pre, post. repeat split; try assumption.
        exact (add_merges _ _ _ _ _ _ E N P S T).
    + left. split; [exact S|]. split; [reflexivity|].
      apply add_appends; assumption.
Qed.

(** The cart has one line per product, whatever [add] is called with. *)
Lemma lineOf_None_not_In (product : ProductRef) (items : list CartItem.t) :
  lineOf product items = None -> ~ In product (map CartItem.getProduct items).
Proof.
  unfold lineOf. induction items as [|y items IH]; simpl; [tauto|].
  destruct (Nat.eqb_spec (CartItem.getProduct y) product); [discriminate|].
  intros N [E|H]; [contradiction|exact (IH N H)].
Qed.

Lemma add_keeps_one_line_per_product (product : ProductRef) (quantity : Q)
      (w : World) (c : Completion unit) (w' : World) :
  NoDup (map CartItem.getProduct (cart w)) ->
  Cart.add product quantity w = (c, w') ->
  NoDup (map CartItem.getProduct (cart w')).
Proof.
  intros ND.
  destruct (add_cases product quantity w)
    as [(_ & ->)|[(_ & L & ->)|[(_ & x & _ & _ & ->)
       |(_ & x & pre & post & L & E & _ & _ & ->)]]];
    intros [= _ <-]; cbn [cart setCart]; try exact ND.
  - rewrite map_app. apply NoDup_app; [exact ND|repeat constructor; simpl; tauto|].
    intros a Ha [<-|[]]. exact (lineOf_None_not_In _ _ L Ha).
  - destruct (lineOf_Some _ _ _ L) as (pre' & post' & _ & _ & P & _).
    rewrite E in ND. rewrite map_app in *. simpl in *. rewrite P in ND. exact ND.
Qed.

(** On a cart with one line per product the commit phase cannot fail:
    a checkout that fails has failed before it, and so has changed
    neither a stock nor the balance. *)
Lemma checkout_fails_before_commit (now : Z) (w w' : World) (e : Error) :
  NoDup (map CartItem.getProduct (cart w)) ->
  ECommerceSystem.checkout now w = (Throw e, w') ->
  beforeCommit e = true.
Proof.
  intros ND H. apply checkout_outcome_of in H.
  inversion H as [E|e' Hne V|w1 Hne V N B|w1 e' w3 Hne V ((Hp & Hc & Hk) & Ho) B R|];
    subst; try reflexivity.
  - destruct (validation_error _ _ _ _ _ V) as (? & _ & [->| ->]); reflexivity.
  - destruct (reduction_succeeds now (cart w) (pay w w1) ND) as (w4 & R').
    + unfold validLine in *. cbn [pay products setCustomer]. rewrite Hp. exact V.
    + rewrite R' in R. discriminate R.
Qed.

(** ** The program of the source *)

(** Run when the products are created, the program prints the shipment
    notice and the receipt; the customer is left with 592. *)
Lemma main_prints_the_receipt :
  main false 0 (sampleWorld 0)
  = (Normal tt,
     mkWorld
       (update 3%nat (Product.setQuantity 99 scratchCard)
          (update 1%nat (Product.setQuantity 14 (biscuits 0))
             (update 0%nat (Product.setQuantity 8 (cheese 0)) (sampleProducts 0))))
       (Customer.make "John Doe" 592)
       [CartItem.make 0%nat 2; CartItem.make 1%nat 1; CartItem.make 3%nat 1]
       [ShipmentNotice; ShipmentLine "Cheese" 200; ShipmentLine "Cheese" 200;
        ShipmentLine "Biscuits" 700; TotalPackageWeight 1.1;
        CheckoutReceipt; ReceiptLine 2 "Cheese" 200; ReceiptLine 1 "Biscuits" 150;
        ReceiptLine 1 "Mobile Scratch Card" 25; Separator; SubtotalLine 375;
        ShippingLine 33; AmountLine 408; BalanceLine 592.00]).
Proof. reflexivity. Qed.

(** With three TVs in the cart, as the comment in the source says, no
    receipt is shown because the balance is insufficient; nothing was
    sold and nothing was paid. *)
Lemma main_with_TV_shows_no_receipt :
  fst (main true 0 (sampleWorld 0)) = Normal tt
  /\ In (ErrorLine "Customer's balance is insufficient")
        (console (snd (main true 0 (sampleWorld 0))))
  /\ ~ In CheckoutReceipt (console (snd (main true 0 (sampleWorld 0))))
  /\ products (snd (main true 0 (sampleWorld 0))) = sampleProducts 0
  /\ customer (snd (main true 0 (sampleWorld 0))) = Customer.make "John Doe" 1000.
Proof.
  split; [reflexivity|]. split; [vm_compute; tauto|].
  split; [|split; reflexivity].
  vm_compute. intuition discriminate.
Qed.

(** * The claims *)

(** ** Failure before the commit phase *)

(** C1. When the checkout fails with one of the errors it raises itself
    (empty cart, expired product, insufficient stock, insufficient
    balance: the failures before the commit phase), the balance of the
    customer and the stock of every product are what they were before
    the call; the products, the customer and the cart are the same
    objects with the same contents.  On a cart with one line per
    product these are the only failures there are, so that there every
    failed checkout has changed nothing. *)
Theorem checkout_failure_before_commit_mutates_nothing
        (now : Z) (w w' : World) (e : Error) :
  ECommerceSystem.checkout now w = (Throw e, w') ->
  beforeCommit e = true \/ NoDup (map CartItem.getProduct (cart w)) ->
  Customer.balance (customer w') = Customer.balance (customer w)
  /\ (forall r, Product.quantity (products w' r) = Product.quantity (products w r))
  /\ sameEntities w w'.
Proof.
  intros H He.
  assert (B : beforeCommit e = true).
  { destruct He as [He|ND]; [exact He|].
    exact (checkout_fails_before_commit _ _ _ _ ND H). }
  apply checkout_outcome_of in H.
  assert (S : sameEntities w w').
  { inversion H; subst.
    - apply sameEntities_refl.
    - apply sameEntities_refl.
    - match goal with N : noticed _ _ |- _ => exact (proj1 N) end.
    - match goal with R : forEach reduceLine _ _ = _ |- _ =>
        apply reduction_error in R; subst e; discriminate B
      end. }
  destruct S as (Hp & Hc & Hk).
  split; [rewrite Hc; reflexivity|].
  split; [intros r; rewrite Hp; reflexivity|].
  repeat split; assumption.
Qed.

Lemma checkout_failure_before_commit_witness :
  fst (ECommerceSystem.checkout 0 (scenario 300 0 (fun _ => noProduct)))
  = Throw InsufficientBalance
  /\ Customer.balance
       (customer (snd (ECommerceSystem.checkout 0 (scenario 300 0 (fun _ => noProduct)))))
     = 300
  /\ Product.quantity
       (products (snd (ECommerceSystem.checkout 0 (scenario 300 0 (fun _ => noProduct)))) 0%nat)
     = 10
  /\ Product.quantity
       (products (snd (ECommerceSystem.checkout 0 (scenario 300 0 (fun _ => noProduct)))) 1%nat)
     = 15.
Proof.
  assert (H : ECommerceSystem.checkout 0 (scenario 300 0 (fun _ => noProduct))
              = (Throw InsufficientBalance,
                 snd (ECommerceSystem.checkout 0 (scenario 300 0 (fun _ => noProduct)))))
    by (vm_compute; reflexivity).
  destruct (checkout_failure_before_commit_mutates_nothing _ _ _ _ H
              (or_introl eq_refl))
    as (Hb & Hq & _).
  split; [vm_compute; reflexivity|].
  split; [rewrite Hb; reflexivity|].
  split; rewrite Hq; reflexivity.
Defined.

(** ** The end-to-end scenario *)

(** The cart of the scenario is the one two calls of [add] build. *)
Lemma scenario_cart_by_add (weightA : Q) (others : ProductRef -> Product.t) :
  (Cart.add 0%nat 2 ;; Cart.add 1%nat 1)
    (setCart [] (scenario 1000 weightA others))
  = (Normal tt, scenario 1000 weightA others).
Proof. reflexivity. Qed.

(** C2. With product A (price 100, stock 10, never expires, not
    shipped) and product B (price 150, stock 15, never expires, shipped,
    0.7 kg), the cart A x 2, B x 1 and a balance of 1000, the checkout
    succeeds: the subtotal is 350, one unit of 0.7 kg is shipped for a
    fee of 21, the amount is 371, the balance becomes 629 and the stocks
    become 8 and 14. *)
Theorem scenario_checkout_succeeds
        (now : Z) (weightA : Q) (others : ProductRef -> Product.t) :
  let w := scenario 1000 weightA others in
  let w' := snd (ECommerceSystem.checkout now w) in
  fst (ECommerceSystem.checkout now w) = Normal tt
  /\ fst (Cart.getSubtotal w) = Normal 350
  /\ shippableItemsOf w = [ShippableItem.make "B" 0.7]
  /\ fst (ShippingService.calculateShippingFee (shippableItemsOf w) w) = Normal 21
  /\ totalAmountOf w = 371
  /\ console w' = [ShipmentNotice; ShipmentLine "B" 700; TotalPackageWeight 0.7;
                   CheckoutReceipt; ReceiptLine 2 "A" 200; ReceiptLine 1 "B" 150;
                   Separator; SubtotalLine 350; ShippingLine 21; AmountLine 371;
                   BalanceLine 629.00]
  /\ Customer.balance (customer w') = 629
  /\ Product.quantity (products w' 0%nat) = 8
  /\ Product.quantity (products w' 1%nat) = 14.
Proof.
  cbv zeta. repeat split; vm_compute; reflexivity.
Qed.

(** In binary64, the arithmetic of the source, the fee of the scenario is
    the same: the weight 0.7 is the double 0x1.6666666666666p-1, its
    product with 30 rounds to 21 exactly, and the amounts 350, 371 and
    629 are integers the doubles represent. *)
Module Binary64.
Import PrimFloat.

Lemma scenario_fee_in_binary64 :
  eqb (mul (add 0%float 0x1.6666666666666p-1%float) 30%float) 21%float = true
  /\ eqb (sub 1000%float (add 350%float 21%float)) 629%float = true.
Proof. split; reflexivity. Qed.

End Binary64.

(** ** The order of the checks *)



(** ** What a successful checkout changes *)





(** ** Adding to the cart *)

(** The two guards of [add], whatever the signs of the quantities.
    [add] fails with the error of its first guard exactly when the
    requested quantity exceeds the stock, and with the error of its
    second guard exactly when the request is within the stock, the
    product already has a line and the merged quantity exceeds the
    stock; it fails in no other way, and a failed call leaves the world
    as it was. *)
Lemma add_fails_exactly_on_excess (product : ProductRef) (quantity : Q) (w : World) :
  let stock := Product.getQuantity (products w product) in
  let matches := fun item => Nat.eqb (CartItem.getProduct item) product in
  (fst (Cart.add product quantity w) = Throw ExceedsStock <-> stock < quantity)
  /\ (fst (Cart.add product quantity w) = Throw TotalExceedsStock
      <-> quantity <= stock
          /\ exists existing,
               lineOf product (cart w) = Some existing
               /\ stock < CartItem.getQuantity existing + quantity)
  /\ (forall e,
        fst (Cart.add product quantity w) = Throw e ->
        (e = ExceedsStock \/ e = TotalExceedsStock)
        /\ snd (Cart.add product quantity w) = w)
  /\ (lineOf product (cart w) = None ->
      ((exists e, fst (Cart.add product quantity w) = Throw e) <-> stock < quantity))
  /\ (forall existing,
        lineOf product (cart w) = Some existing ->
        0 <= CartItem.getQuantity existing ->
        ((exists e, fst (Cart.add product quantity w) = Throw e)
         <-> stock < CartItem.getQuantity existing + quantity))
  /\ (forall q2 w',
        lineOf product (cart w) = None ->
        (Cart.add product quantity ;; Cart.add product q2) w = (Normal tt, w') ->
        cart w' = cart w ++ [CartItem.make product (quantity + q2)]
        /\ filter matches (cart w') = [CartItem.make product (quantity + q2)]
        /\ getTotalPrice w' (CartItem.make product (quantity + q2))
           = Product.getPrice (products w product) * (quantity + q2)
        /\ subtotalOf w'
           = subtotalOf w + Product.getPrice (products w product) * (quantity + q2)
        /\ products w' = products w /\ customer w' = customer w)
  /\ (forall q2,
        lineOf product (cart w) = None ->
        0 <= quantity -> 0 <= q2 -> quantity + q2 <= stock ->
        fst ((Cart.add product quantity ;; Cart.add product q2) w) = Normal tt).
Proof.
  cbv zeta.
  pose proof (add_cases product quantity w) as C. cbv zeta in C.
  split; [|split; [|split; [|split; [|split; [|split]]]]].
  - destruct C as [(S & ->)|[(S & _ & ->)|[(S & x & _ & _ & ->)
                  |(S & x & pre & post & _ & _ & _ & _ & ->)]]];
      cbn [fst]; split; intros H; try discriminate H; try reflexivity; lra.
  - destruct C as [(S & ->)|[(S & L & ->)|[(S & x & L & T & ->)
                  |(S & x & pre & post & L & _ & _ & T & ->)]]];
      cbn [fst]; split; intros H; try discriminate H; try reflexivity.
    + destruct H as [H _]. lra.
    + destruct H as (_ & y & L' & _). congruence.
    + split; [exact S|]. exists x. auto.
    + destruct H as (_ & y & L' & T'). rewrite L in L'.
      injection L' as <-. lra.
  - intros e.
    destruct C as [(S & ->)|[(S & L & ->)|[(S & x & L & T & ->)
                  |(S & x & pre & post & L & _ & _ & T & ->)]]];
      cbn [fst snd]; intros [= <-]; auto.
  - intros L.
    destruct C as [(S & ->)|[(S & _ & ->)|[(S & x & L' & _)
                  |(S & x & pre & post & L' & _)]]];
      cbn [fst]; try congruence.
    + split; [intros _; exact S|intros _; eauto].
    + split; [intros [e H]; discriminate H|intros H; lra].
  - intros existing L P.
    destruct C as [(S & ->)|[(S & L' & _)|[(S & x & L' & T & ->)
                  |(S & x & pre & post & L' & _ & _ & T & ->)]]];
      cbn [fst]; try congruence.
    + split; [intros _; lra|intros _; eauto].
    + rewrite L in L'. injection L' as <-.
      split; [intros _; exact T|intros _; eauto].
    + rewrite L in L'. injection L' as <-.
      split; [intros [e H]; discriminate H|intros H; lra].
  - intros q2 w' L H. rewrite (add_twice _ _ _ _ L) in H. cbv zeta in H.
    destruct (Qgtb quantity _); [discriminate H|].
    destruct (Qgtb q2 _); [discriminate H|].
    destruct (Qgtb (quantity + q2) _); [discriminate H|].
    injection H as <-. cbn [cart products customer setCart].
    split; [reflexivity|]. split.
    + rewrite filter_app, (lineOf_None_filter _ _ L). simpl.
      rewrite Nat.eqb_refl. reflexivity.
    + split; [reflexivity|]. split; [|split; reflexivity].
      apply subtotal_after_append.
  - intros q2 L P1 P2 S. rewrite (add_twice _ _ _ _ L). cbv zeta.
    assert (G1 : Qgtb quantity (Product.getQuantity (products w product)) = false)
      by (apply Qgtb_false; lra).
    assert (G2 : Qgtb q2 (Product.getQuantity (products w product)) = false)
      by (apply Qgtb_false; lra).
    apply Qgtb_false in S. rewrite G1, G2, S. reflexivity.
Qed.

Lemma lineOf_In (product : ProductRef) (items : list CartItem.t)
      (existing : CartItem.t) :
  lineOf product items = Some existing ->
  In existing items /\ CartItem.getProduct existing = product.
Proof.
  intros L. destruct (lineOf_Some _ _ _ L) as (pre & post & -> & _ & P & _).
  split; [apply in_elt|exact P].
Qed.

Lemma lineOf_by_reference (product : ProductRef) (items : list CartItem.t) :
  lineOf product items = None
  <-> forall item, In item items -> CartItem.getProduct item <> product.
Proof.
  unfold lineOf. induction items as [|y items IH]; simpl.
  - split; [intros _ item []|reflexivity].
  - destruct (Nat.eqb_spec (CartItem.getProduct y) product) as [E|E].
    + split; [discriminate|]. intros H. exfalso. exact (H y (or_introl eq_refl) E).
    + rewrite IH. split.
      * intros H item [<-|Hin]; auto.
      * intros H item Hin. apply H. right. exact Hin.
Qed.

(** C3. Quantities being positive, as the lines of a cart and the
    requests are meant to be, [add] fails with its error on the stock
    exactly when the requested quantity, for a product that has no line
    in the cart, or the merged quantity, for a product that has one,
    exceeds the stock of the product.  The line is found by the
    reference of the product, whatever the names.  A failed call leaves
    the world, the cart included, as it was.  Two calls for a product
    that had no line, with quantities whose sum is within the stock,
    succeed and leave one line for it, appended to the cart, with the
    sum of the two quantities; its total is the unit price times that
    sum, and the subtotal of the cart is the one before plus that
    total. *)
Theorem add_fails_exactly_when_stock_is_exceeded
        (product : ProductRef) (quantity : Q) (w : World) :
  0 < quantity ->
  Forall (fun item => 0 < CartItem.getQuantity item) (cart w) ->
  let stock := Product.getQuantity (products w product) in
  let matches := fun item => Nat.eqb (CartItem.getProduct item) product in
  ((exists e, fst (Cart.add product quantity w) = Throw e)
   <-> match lineOf product (cart w) with
       | None => stock < quantity
       | Some existing => stock < CartItem.getQuantity existing + quantity
       end)
  /\ (forall e,
        fst (Cart.add product quantity w) = Throw e ->
        (e = ExceedsStock \/ e = TotalExceedsStock)
        /\ snd (Cart.add product quantity w) = w)
  /\ (lineOf product (cart w) = None
      <-> forall item, In item (cart w) -> CartItem.getProduct item <> product)
  /\ (forall existing,
        lineOf product (cart w) = Some existing ->
        In existing (cart w) /\ CartItem.getProduct existing = product)
  /\ (forall q2,
        0 < q2 ->
        lineOf product (cart w) = None ->
        quantity + q2 <= stock ->
        (Cart.add product quantity ;; Cart.add product q2) w
        = (Normal tt, setCart (cart w ++ [CartItem.make product (quantity + q2)]) w)
        /\ filter matches (cart w ++ [CartItem.make product (quantity + q2)])
           = [CartItem.make product (quantity + q2)]
        /\ getTotalPrice w (CartItem.make product (quantity + q2))
           = Product.getPrice (products w product) * (quantity + q2)
        /\ subtotalOf (setCart (cart w ++ [CartItem.make product (quantity + q2)]) w)
           = subtotalOf w + Product.getPrice (products w product) * (quantity + q2)).
Proof.
  intros Pq Pc. cbv zeta.
  destruct (add_fails_exactly_on_excess product quantity w)
    as (_ & _ & F & N & E & T6 & T7).
  split; [|split; [exact F|split; [apply lineOf_by_reference|split]]].
  - destruct (lineOf product (cart w)) as [existing|] eqn:L.
    + apply (E existing eq_refl).
      destruct (lineOf_In _ _ _ L) as [Hin _].
      rewrite Forall_forall in Pc. specialize (Pc existing Hin). lra.
    + exact (N eq_refl).
  - intros existing L. exact (lineOf_In _ _ _ L).
  - intros q2 P2 L S.
    assert (F2 : fst ((Cart.add product quantity ;; Cart.add product q2) w) = Normal tt)
      by (apply T7; [exact L|lra|lra|exact S]).
    destruct ((Cart.add product quantity ;; Cart.add product q2) w) as [c w'] eqn:R.
    cbn [fst] in F2. subst c.
    destruct (T6 q2 w' L R) as (Hk & Hf & Ht & Hs & Hp & Hc).
    assert (W : w' = setCart (cart w ++ [CartItem.make product (quantity + q2)]) w).
    { rewrite (add_twice _ _ _ _ L) in R. cbv zeta in R.
      destruct (Qgtb quantity _); [discriminate R|].
      destruct (Qgtb q2 _); [discriminate R|].
      destruct (Qgtb (quantity + q2) _); [discriminate R|].
      injection R as <-. reflexivity. }
    subst w'. cbn [cart setCart] in *. repeat split; assumption.
Qed.

Lemma add_fails_exactly_when_stock_is_exceeded_witness :
  (Cart.add 0%nat 2 ;; Cart.add 0%nat 3) (sampleWorld 0)
  = (Normal tt, setCart [CartItem.make 0%nat (2 + 3)] (sampleWorld 0))
  /\ subtotalOf (setCart [CartItem.make 0%nat (2 + 3)] (sampleWorld 0))
     = 0 + 100 * (2 + 3)
  /\ ((exists e,
         fst (Cart.add 0%nat 6 (setCart [CartItem.make 0%nat (2 + 3)] (sampleWorld 0)))
         = Throw e)
      <-> 10 < (2 + 3) + 6).
Proof.
  destruct (add_fails_exactly_when_stock_is_exceeded 0%nat 2 (sampleWorld 0))
    as (_ & _ & _ & _ & T);
    [unfold Qlt; simpl; lia|constructor|].
  destruct (T 3 ltac:(unfold Qlt; simpl; lia) eq_refl ltac:(unfold Qle; simpl; lia))
    as (R & _ & _ & S).
  split; [exact R|]. split; [exact S|].
  exact (proj1 (add_fails_exactly_when_stock_is_exceeded 0%nat 6
                  (setCart [CartItem.make 0%nat (2 + 3)] (sampleWorld 0))
                  ltac:(unfold Qlt; simpl; lia)
                  ltac:(repeat constructor; unfold Qlt; simpl; lia))).
Defined.

(** ** Quantities that are not positive *)

Lemma checkout_EmptyCart (now : Z) (w : World) :
  fst (ECommerceSystem.checkout now w) = Throw EmptyCart <-> cart w = [].
Proof.
  split.
  - intros F. destruct (ECommerceSystem.checkout now w) as [c w'] eqn:E.
    cbn [fst] in F. subst c. apply checkout_outcome_of in E.
    inversion E; subst.
    + assumption.
    + match goal with V : forEach _ _ _ = (Throw _, _) |- _ =>
        destruct (validation_error _ _ _ _ _ V) as (? & _ & [?|?]); discriminate
      end.
    + match goal with R : forEach reduceLine _ _ = _ |- _ =>
        apply reduction_error in R; discriminate R
      end.
  - intros E. rewrite checkout_run, E. reflexivity.
Qed.

(** C9 (as amended).  [add] has no guard on the sign of the quantity:
    for every product and every quantity that is at most the stock
    (zero and negative quantities included) and, when the product
    already has a line, whose sum with the quantity of that line is at
    most the stock, [add] succeeds; the cart then holds for the product a
    line with that quantity (appended to the cart) or with the merged
    quantity (in place of the line it had), so the cart is not empty
    and a checkout does not fail with [EmptyCart]. *)
Theorem add_accepts_any_quantity_within_stock
        (product : ProductRef) (quantity : Q) (w : World) :
  quantity <= Product.getQuantity (products w product) ->
  (forall existing,
     lineOf product (cart w) = Some existing ->
     CartItem.getQuantity existing + quantity
     <= Product.getQuantity (products w product)) ->
  exists w',
    Cart.add product quantity w = (Normal tt, w')
    /\ lineOf product (cart w')
       = Some (CartItem.make product
                 match lineOf product (cart w) with
                 | Some existing => CartItem.getQuantity existing + quantity
                 | None => quantity
                 end)
    /\ (lineOf product (cart w) = None ->
        cart w' = cart w ++ [CartItem.make product quantity])
    /\ cart w' <> []
    /\ forall now, fst (ECommerceSystem.checkout now w') <> Throw EmptyCart.
Proof.
  intros S T.
  assert (K : exists w',
             Cart.add product quantity w = (Normal tt, w')
             /\ lineOf product (cart w')
                = Some (CartItem.make product
                          match lineOf product (cart w) with
                          | Some existing => CartItem.getQuantity existing + quantity
                          | None => quantity
                          end)
             /\ (lineOf product (cart w) = None ->
                 cart w' = cart w ++ [CartItem.make product quantity])).
  { destruct (add_cases product quantity w)
      as [(S' & _)|[(_ & L & R)|[(_ & x & L & T' & _)
         |(_ & x & pre & post & L & E & N & _ & R)]]].
    - lra.
    - eexists. split; [exact R|]. rewrite L. cbn [cart setCart].
      split; [|reflexivity].
      exact (proj1 (lineOf_middle product (cart w) []
                      (CartItem.make product quantity) L eq_refl)).
    - specialize (T x L). lra.
    - eexists. split; [exact R|]. rewrite L. cbn [cart setCart].
      split; [|discriminate].
      exact (proj1 (lineOf_middle product pre post
                      (CartItem.make product (CartItem.getQuantity x + quantity))
                      N eq_refl)). }
  destruct K as (w' & R & L' & A). exists w'.
  assert (Hne : cart w' <> []).
  { intros E. rewrite E in L'. discriminate L'. }
  repeat split; try assumption.
  intros now F. apply checkout_EmptyCart in F. contradiction.
Qed.

Lemma add_accepts_any_quantity_within_stock_witness :
  exists w',
    Cart.add 0%nat (-3) (sampleWorld 0) = (Normal tt, w')
    /\ lineOf 0%nat (cart w') = Some (CartItem.make 0%nat (-3))
    /\ cart w' <> []
    /\ fst (ECommerceSystem.checkout 0 w') <> Throw EmptyCart.
Proof.
  destruct (add_accepts_any_quantity_within_stock 0%nat (-3) (sampleWorld 0))
    as (w' & R & L & _ & Hne & C).
  - unfold Qle. simpl. lia.
  - intros existing H. discriminate H.
  - exists w'. repeat split; [exact R|exact L|exact Hne|exact (C 0%Z)].
Defined.

(** A request within the stock is rejected when the product has a line
    and the merged quantity exceeds the stock: with 8 units of cheese in
    the cart and a stock of 10, [add(cheese, 5)] fails. *)
Lemma add_within_stock_rejected_on_merge :
  snd (Cart.add 0%nat 8 (sampleWorld 0))
  = setCart [CartItem.make 0%nat 8] (sampleWorld 0)
  /\ 5 <= Product.getQuantity (products (sampleWorld 0) 0%nat)
  /\ Cart.add 0%nat 5 (setCart [CartItem.make 0%nat 8] (sampleWorld 0))
     = (Throw TotalExceedsStock, setCart [CartItem.make 0%nat 8] (sampleWorld 0)).
Proof.
  repeat split. unfold Qle. simpl. lia.
Qed.

(** ** The shipping fee *)

Lemma totalWeightOf_from (items : list ShippableItem.t) (start : Q) :
  fold_left (fun sum item => sum + ShippableItem.getWeight item) items start
  == start + ShippingService.totalWeightOf items.
Proof.
  unfold ShippingService.totalWeightOf.
  revert start. induction items as [|item items IH]; intros start; simpl.
  - lra.
  - rewrite (IH (start + _)), (IH (0 + _)). lra.
Qed.

Lemma totalWeightOf_cons (item : ShippableItem.t) (items : list ShippableItem.t) :
  ShippingService.totalWeightOf (item :: items)
  == ShippableItem.getWeight item + ShippingService.totalWeightOf items.
Proof.
  unfold ShippingService.totalWeightOf at 1. simpl.
  rewrite totalWeightOf_from. lra.
Qed.

Lemma shippingFeeOf_ceil (items : list ShippableItem.t) :
  shippingFeeOf items
  = Math.ceil (ShippingService.totalWeightOf items
               * ShippingService.SHIPPING_RATE_PER_KG).
Proof. destruct items; reflexivity. Qed.

Lemma calculateShippingFee_value (items : list ShippableItem.t) (w : World) :
  fst (ShippingService.calculateShippingFee items w) = Normal (shippingFeeOf items).
Proof.
  destruct (calculateShippingFee_run items w) as (w' & -> & _). reflexivity.
Qed.

(** ** The shipping fee as binary64 computes it *)

Module FeeOnDoubles.
Import PrimFloat.

(** The doubles of the literals: each is within half the distance to the
    next double of the decimal number the literal writes. *)
Lemma doubles_of_the_literals :
  (exists q, Float64.valueOf Float64.tenth = Some q
             /\ - (1 # 2 ^ 57) <= q - 0.1 /\ q - 0.1 <= 1 # 2 ^ 57)
  /\ (exists q, Float64.valueOf Float64.fifth = Some q
                /\ - (1 # 2 ^ 56) <= q - 0.2 /\ q - 0.2 <= 1 # 2 ^ 56)
  /\ (exists q, Float64.valueOf Float64.threeTenths = Some q
                /\ - (1 # 2 ^ 55) <= q - 0.3 /\ q - 0.3 <= 1 # 2 ^ 55)
  /\ (exists q, Float64.valueOf Float64.sevenTenths = Some q
                /\ - (1 # 2 ^ 54) <= q - 0.7 /\ q - 0.7 <= 1 # 2 ^ 54)
  /\ Float64.valueOf Float64.fifteen = Some 15.
Proof.
  repeat split; try (eexists; split; [vm_compute; reflexivity|]);
    try (split; vm_compute; discriminate).
Qed.

Lemma ceiling_is_least (x : Q) :
  x <= inject_Z (Qceiling x) /\ inject_Z (Qceiling x) < x + 1
  /\ forall n : Z, x <= inject_Z n -> (Qceiling x <= n)%Z.
Proof.
  split; [apply Qle_ceiling|]. split.
  - pose proof (Qceiling_lt x) as H. unfold Z.sub in H.
    rewrite inject_Z_plus, inject_Z_opp in H. change (inject_Z 1) with 1 in H. lra.
  - intros n H. apply Qceiling_resp_le in H. rewrite Qceiling_Z in H. exact H.
Qed.

(** The fee of one unit of 0.1 kg is 3, although the weight times 30 is
    above 3 and its ceiling is 4: the product is rounded to 3 before the
    ceiling is taken.  The fee of three units of 0.2 kg, the cheese of
    the source, is 19, although 0.6 kg times 30 is 18: the sum is
    rounded to a double above 0.6. *)
Lemma fee_is_not_the_ceiling_of_the_exact_product :
  Float64.ShippingService.totalWeightOf [Float64.ShippableItem.make "Tea" Float64.tenth]
  = Float64.tenth
  /\ Float64.ShippingService.calculateShippingFee
       [Float64.ShippableItem.make "Tea" Float64.tenth] = Some 3%Z
  /\ option_map (fun weight => Qceiling (weight * 30)) (Float64.valueOf Float64.tenth)
     = Some 4%Z
  /\ Float64.ShippingService.calculateShippingFee
       [Float64.ShippableItem.make "Cheese" Float64.fifth;
        Float64.ShippableItem.make "Cheese" Float64.fifth;
        Float64.ShippableItem.make "Cheese" Float64.fifth] = Some 19%Z
  /\ Qceiling ((0.2 + 0.2 + 0.2) * 30) = 18%Z.
Proof. repeat split; vm_compute; reflexivity. Qed.

(** C4 (as amended).  For no shippable item the fee is 0.  For at least
    one it is [Math.ceil] of the product of the total weight and the
    rate per kg as binary64 computes it: the least integer that is not
    below that rounded product (nothing is returned as an integer when
    the product is NaN or infinite).  The total weight is the sum of the
    weights as binary64 computes it, from 0 and one item after the
    other in the order of the list, and the rate is 30. *)
Theorem fee_is_ceiling_of_the_rounded_product :
  Float64.ShippingService.calculateShippingFee [] = Some 0%Z
  /\ (forall items x,
        items <> [] ->
        Float64.valueOf
          (Float64.ShippingService.totalWeightOf items
           * Float64.ShippingService.SHIPPING_RATE_PER_KG)%float = Some x ->
        exists fee,
          Float64.ShippingService.calculateShippingFee items = Some fee
          /\ x <= inject_Z fee /\ inject_Z fee < x + 1
          /\ forall n : Z, x <= inject_Z n -> (fee <= n)%Z)
  /\ (forall items,
        items <> [] ->
        Float64.valueOf
          (Float64.ShippingService.totalWeightOf items
           * Float64.ShippingService.SHIPPING_RATE_PER_KG)%float = None ->
        Float64.ShippingService.calculateShippingFee items = None)
  /\ Float64.ShippingService.SHIPPING_RATE_PER_KG = 30%float
  /\ Float64.ShippingService.totalWeightOf [] = 0%float
  /\ (forall items item,
        Float64.ShippingService.totalWeightOf (items ++ [item])
        = (Float64.ShippingService.totalWeightOf items
           + Float64.ShippableItem.getWeight item)%float).
Proof.
  split; [reflexivity|]. split; [|split; [|split; [reflexivity|split; [reflexivity|]]]].
  - intros [|item items] x Hne V; [contradiction|].
    exists (Qceiling x).
    unfold Float64.ShippingService.calculateShippingFee, Float64.Math.ceil.
    cbn [length Nat.eqb]. rewrite V. split; [reflexivity|].
    apply ceiling_is_least.
  - intros [|item items] Hne V; [contradiction|].
    unfold Float64.ShippingService.calculateShippingFee, Float64.Math.ceil.
    cbn [length Nat.eqb]. rewrite V. reflexivity.
  - intros items item. unfold Float64.ShippingService.totalWeightOf.
    rewrite fold_left_app. reflexivity.
Qed.

Lemma fee_is_ceiling_witness :
  exists fee,
    Float64.ShippingService.calculateShippingFee
      [Float64.ShippableItem.make "B" Float64.sevenTenths] = Some fee
    /\ 21 <= inject_Z fee /\ inject_Z fee < 21 + 1.
Proof.
  destruct (proj1 (proj2 fee_is_ceiling_of_the_rounded_product)
              [Float64.ShippableItem.make "B" Float64.sevenTenths] 21
              ltac:(discriminate) ltac:(vm_compute; reflexivity))
    as (fee & E & L & U & _).
  exists fee. auto.
Defined.




End FeeOnDoubles.

(** ** Stock and balance never go below zero *)

Lemma add_entities (product : ProductRef) (quantity : Q) (w : World)
      (c : Completion unit) (w' : World) :
  Cart.add product quantity w = (c, w') ->
  products w' = products w /\ customer w' = customer w /\ console w' = console w.
Proof.
  destruct (add_cases product quantity w)
    as [(_ & ->)|[(_ & _ & ->)|[(_ & x & _ & _ & ->)
       |(_ & x & pre & post & _ & _ & _ & _ & ->)]]];
    intros [= <- <-]; repeat split.
Qed.

Lemma checkout_nonNegative (now : Z) (w : World) (c : Completion unit) (w' : World) :
  nonNegative w -> ECommerceSystem.checkout now w = (c, w') -> nonNegative w'.
Proof.
  intros [Hb Hq] H. apply checkout_outcome_of in H.
  inversion H as [E|e Hne V|w1 Hne V ((Hp & Hc & Hk) & Ho) B
                 |w1 e w3 Hne V ((Hp & Hc & Hk) & Ho) B R
                 |w1 w3 Hne V ((Hp & Hc & Hk) & Ho) B R]; subst.
  - split; assumption.
  - split; assumption.
  - split; [rewrite Hc|intros r; rewrite Hp]; auto.
  - destruct (reduction_frame _ _ _ _ R) as (Fc & _).
    split.
    + rewrite Fc. cbn [pay customer setCustomer Customer.balance Customer.setBalance].
      lra.
    + apply (reduction_nonneg _ _ _ _ R). intros r.
      cbn [pay products setCustomer]. rewrite Hp. apply Hq.
  - destruct (reduction_frame _ _ _ _ R) as (Fc & _).
    split; cbn [customer products setConsole].
    + rewrite Fc. cbn [pay customer setCustomer Customer.balance Customer.setBalance].
      lra.
    + apply (reduction_nonneg _ _ _ _ R). intros r.
      cbn [pay products setCustomer]. rewrite Hp. apply Hq.
Qed.

(** C6. [reduceQuantity] fails when the amount exceeds the stock and
    otherwise subtracts it; [deductBalance] fails when the amount
    exceeds the balance and otherwise subtracts it; a failed call
    changes nothing.  So neither takes a stock or a balance that is not
    negative below zero, and the operations built on them, [checkout]
    and [add], however they end, leave every stock and the balance
    non-negative when they were so before.  After a call that succeeded
    the stock read from the product is the stock before minus the
    amount, and the name, the price, the expiry, the shipping flag and
    the weight read from it are as before; the balance read from the
    customer is the balance before minus the amount, and the name is as
    before. *)
Theorem stock_and_balance_stay_non_negative :
  (forall amount p,
     (Product.quantity p < amount ->
      Product.reduceQuantity amount p = (Throw StockNotAvailable, p))
     /\ (amount <= Product.quantity p ->
         Product.reduceQuantity amount p
         = (Normal tt, Product.setQuantity (Product.quantity p - amount) p)))
  /\ (forall amount p c p',
        0 <= Product.quantity p ->
        Product.reduceQuantity amount p = (c, p') ->
        0 <= Product.quantity p')
  /\ (forall amount k,
        (Customer.balance k < amount ->
         Customer.deductBalance amount k = (Throw BalanceTooLow, k))
        /\ (amount <= Customer.balance k ->
            Customer.deductBalance amount k
            = (Normal tt, Customer.setBalance (Customer.balance k - amount) k)))
  /\ (forall amount k c k',
        0 <= Customer.balance k ->
        Customer.deductBalance amount k = (c, k') ->
        0 <= Customer.balance k')
  /\ (forall now w c w',
        nonNegative w -> ECommerceSystem.checkout now w = (c, w') -> nonNegative w')
  /\ (forall product quantity w c w',
        nonNegative w -> Cart.add product quantity w = (c, w') -> nonNegative w')
  /\ (forall amount p,
        amount <= Product.getQuantity p ->
        fst (Product.reduceQuantity amount p) = Normal tt
        /\ Product.getQuantity (snd (Product.reduceQuantity amount p))
           = Product.getQuantity p - amount
        /\ Product.getName (snd (Product.reduceQuantity amount p)) = Product.getName p
        /\ Product.getPrice (snd (Product.reduceQuantity amount p)) = Product.getPrice p
        /\ Product.variant (snd (Product.reduceQuantity amount p)) = Product.variant p
        /\ Product.requiresShipping (snd (Product.reduceQuantity amount p))
           = Product.requiresShipping p
        /\ Product.getWeight (snd (Product.reduceQuantity amount p))
           = Product.getWeight p)
  /\ (forall amount k,
        amount <= Customer.getBalance k ->
        fst (Customer.deductBalance amount k) = Normal tt
        /\ Customer.getBalance (snd (Customer.deductBalance amount k))
           = Customer.getBalance k - amount
        /\ Customer.getName (snd (Customer.deductBalance amount k))
           = Customer.getName k).
Proof.
  split; [|split; [|split; [|split; [|split; [|split; [|split]]]]]].
  - intros amount p. unfold Product.reduceQuantity. split; intros H.
    + apply Qgtb_true in H. rewrite H. reflexivity.
    + apply Qgtb_false in H. rewrite H. reflexivity.
  - intros amount p c p' Hp. unfold Product.reduceQuantity.
    destruct (Qgtb amount (Product.quantity p)) eqn:G.
    + intros [= _ <-]. exact Hp.
    + intros [= _ <-]. apply Qgtb_false in G.
      cbn [Product.quantity Product.setQuantity]. lra.
  - intros amount k. unfold Customer.deductBalance. split; intros H.
    + apply Qgtb_true in H. rewrite H. reflexivity.
    + apply Qgtb_false in H. rewrite H. reflexivity.
  - intros amount k c k' Hk. unfold Customer.deductBalance.
    destruct (Qgtb amount (Customer.balance k)) eqn:G.
    + intros [= _ <-]. exact Hk.
    + intros [= _ <-]. apply Qgtb_false in G.
      cbn [Customer.balance Customer.setBalance]. lra.
  - exact checkout_nonNegative.
  - intros product quantity w c w' [Hb Hq] H.
    destruct (add_entities _ _ _ _ _ H) as (Hp & Hc & _).
    split; [rewrite Hc|intros r; rewrite Hp]; auto.
  - intros amount p H. unfold Product.reduceQuantity, Product.getQuantity in *.
    apply Qgtb_false in H. rewrite H. repeat split.
  - intros amount k H. unfold Customer.deductBalance, Customer.getBalance in *.
    apply Qgtb_false in H. rewrite H. repeat split.
Qed.

Lemma stock_and_balance_witness :
  Product.reduceQuantity 11 (cheese 0) = (Throw StockNotAvailable, cheese 0)
  /\ Product.reduceQuantity 4 (cheese 0)
     = (Normal tt, Product.setQuantity (10 - 4) (cheese 0))
  /\ Customer.deductBalance 1001 (Customer.make "John Doe" 1000)
     = (Throw BalanceTooLow, Customer.make "John Doe" 1000)
  /\ nonNegative (snd (ECommerceSystem.checkout 0 (scenario 1000 0 (fun _ => noProduct))))
  /\ Product.getQuantity (snd (Product.reduceQuantity 4 (cheese 0))) = 6
  /\ Customer.getBalance
       (snd (Customer.deductBalance 371 (Customer.make "John Doe" 1000))) = 629.
Proof.
  destruct stock_and_balance_stay_non_negative as (R & _ & D & _ & C & _ & R' & D').
  split; [apply (proj1 (R 11 (cheese 0))); unfold Qlt; simpl; lia|].
  split; [apply (proj2 (R 4 (cheese 0))); unfold Qle; simpl; lia|].
  split; [apply (proj1 (D 1001 (Customer.make "John Doe" 1000)));
          unfold Qlt; simpl; lia|].
  split.
  { apply (C 0%Z (scenario 1000 0 (fun _ => noProduct))
             (fst (ECommerceSystem.checkout 0 (scenario 1000 0 (fun _ => noProduct))))).
    - split; [unfold Qle; simpl; lia|].
      intros [|[|r]]; unfold Qle; simpl; lia.
    - apply surjective_pairing. }
  split.
  - exact (proj1 (proj2 (R' 4 (cheese 0) ltac:(unfold Qle; simpl; lia)))).
  - exact (proj1 (proj2 (D' 371 (Customer.make "John Doe" 1000)
                           ltac:(unfold Qle; simpl; lia)))).
Defined.

(** ** The receipt *)




(** * Further properties of the code *)

(** ** What [add] keeps *)

Lemma filter_none (product : ProductRef) (items : list CartItem.t) :
  ~ In product (map CartItem.getProduct items) ->
  filter (fun item => Nat.eqb (CartItem.getProduct item) product) items = [].
Proof.
  induction items as [|y items IH]; simpl; [reflexivity|].
  intros H. destruct (Nat.eqb_spec (CartItem.getProduct y) product); [tauto|].
  apply IH. tauto.
Qed.

Lemma filter_one_line (product : ProductRef) (items : list CartItem.t)
      (line : CartItem.t) :
  NoDup (map CartItem.getProduct items) ->
  lineOf product items = Some line ->
  filter (fun item => Nat.eqb (CartItem.getProduct item) product) items = [line].
Proof.
  unfold lineOf. induction items as [|y items IH]; simpl; [discriminate|].
  intros ND. inversion ND as [|? ? Hy ND']; subst.
  destruct (Nat.eqb_spec (CartItem.getProduct y) product) as [E|E].
  - intros [= <-]. rewrite filter_none; [reflexivity|]. rewrite <- E. exact Hy.
  - auto.
Qed.

Lemma lineOf_snoc_other (r : ProductRef) (items : list CartItem.t) (x : CartItem.t) :
  CartItem.getProduct x <> r -> lineOf r (items ++ [x]) = lineOf r items.
Proof.
  unfold lineOf. intros H. induction items as [|y items IH]; simpl.
  - destruct (Nat.eqb_spec (CartItem.getProduct x) r); [contradiction|reflexivity].
  - rewrite IH. reflexivity.
Qed.

Lemma lineOf_replace_other (r : ProductRef) (pre post : list CartItem.t)
      (x y : CartItem.t) :
  CartItem.getProduct x <> r -> CartItem.getProduct y <> r ->
  lineOf r (pre ++ y :: post) = lineOf r (pre ++ x :: post).
Proof.
  unfold lineOf. intros Hx Hy. induction pre as [|z pre IH]; simpl.
  - destruct (Nat.eqb_spec (CartItem.getProduct x) r); [contradiction|].
    destruct (Nat.eqb_spec (CartItem.getProduct y) r); [contradiction|reflexivity].
  - rewrite IH. reflexivity.
Qed.

(** X1. [add] keeps the cart at one line per product: when no two lines
    of the cart refer to the same product before a call, none do after
    it, however the call ends; and after a call that succeeded the
    product added has exactly one line. *)
Theorem add_keeps_one_line_and_gives_one
        (product : ProductRef) (quantity : Q) (w : World)
        (c : Completion unit) (w' : World) :
  NoDup (map CartItem.getProduct (cart w)) ->
  Cart.add product quantity w = (c, w') ->
  NoDup (map CartItem.getProduct (cart w'))
  /\ (c = Normal tt ->
      exists line,
        CartItem.getProduct line = product
        /\ filter (fun item => Nat.eqb (CartItem.getProduct item) product) (cart w')
           = [line]).
Proof.
  intros ND H.
  pose proof (add_keeps_one_line_per_product _ _ _ _ _ ND H) as ND'.
  split; [exact ND'|]. intros ->.
  destruct (add_cases product quantity w)
    as [(_ & R)|[(_ & L & R)|[(_ & x & _ & _ & R)
       |(_ & x & pre & post & L & E & N & _ & R)]]];
    rewrite R in H; try discriminate H; injection H as <-;
    cbn [cart setCart] in *.
  - exists (CartItem.make product quantity). split; [reflexivity|].
    apply (filter_one_line _ _ _ ND').
    exact (proj1 (lineOf_middle product (cart w) []
                    (CartItem.make product quantity) L eq_refl)).
  - exists (CartItem.make product (CartItem.getQuantity x + quantity)).
    split; [reflexivity|].
    apply (filter_one_line _ _ _ ND').
    exact (proj1 (lineOf_middle product pre post
                    (CartItem.make product (CartItem.getQuantity x + quantity))
                    N eq_refl)).
Qed.

Lemma add_keeps_one_line_witness :
  NoDup (map CartItem.getProduct
           (cart (snd (Cart.add 0%nat 3
                         (setCart [CartItem.make 0%nat 2; CartItem.make 1%nat 1]
                            (sampleWorld 0))))))
  /\ cart (snd (Cart.add 0%nat 3
                  (setCart [CartItem.make 0%nat 2; CartItem.make 1%nat 1]
                     (sampleWorld 0))))
     = [CartItem.make 0%nat (2 + 3); CartItem.make 1%nat 1].
Proof.
  split; [|reflexivity].
  refine (proj1 (add_keeps_one_line_and_gives_one 0%nat 3
                   (setCart [CartItem.make 0%nat 2; CartItem.make 1%nat 1]
                      (sampleWorld 0))
                   _ _ _ (surjective_pairing _))).
  repeat constructor; simpl; intuition discriminate.
Defined.

Lemma withinStock_add (product : ProductRef) (quantity : Q) (w : World)
      (c : Completion unit) (w' : World) :
  withinStock w -> Cart.add product quantity w = (c, w') -> withinStock w'.
Proof.
  unfold withinStock. intros W H.
  destruct (add_cases product quantity w)
    as [(_ & R)|[(S & L & R)|[(_ & x & _ & _ & R)
       |(S & x & pre & post & L & E & N & T & R)]]];
    rewrite R in H; injection H as <- <-; cbn [cart products setCart];
    try exact W.
  - apply Forall_app. split; [exact W|]. constructor; [exact S|constructor].
  - rewrite E in W. apply Forall_app in W. destruct W as [Wpre Wpost].
    inversion Wpost as [|? ? _ Wpost']; subst.
    apply Forall_app. split; [exact Wpre|]. constructor; [exact T|exact Wpost'].
Qed.


(** X2. [add] keeps every line within the stock: when every line of
    the cart asks for at most the current stock of its product before a
    call, every line does after it, however the call ends. *)
Theorem add_keeps_lines_within_stock
        (product : ProductRef) (quantity : Q) (w : World)
        (c : Completion unit) (w' : World) :
  withinStock w ->
  Cart.add product quantity w = (c, w') ->
  withinStock w'.
Proof. exact (withinStock_add product quantity w c w'). Qed.

Lemma add_keeps_lines_within_stock_witness :
  withinStock (snd (Cart.add 0%nat 3
                      (setCart [CartItem.make 0%nat 2; CartItem.make 1%nat 1]
                         (sampleWorld 0)))).
Proof.
  refine (add_keeps_lines_within_stock 0%nat 3
            (setCart [CartItem.make 0%nat 2; CartItem.make 1%nat 1] (sampleWorld 0))
            _ _ _ (surjective_pairing _)).
  repeat constructor; unfold Qle; simpl; lia.
Defined.

(** X3. [add] touches nothing but the line of its product: the
    products, the customer and the console are as before, the line of
    every other product is as before, and the products of the lines keep
    their order, the product added coming last when it is new. *)
Theorem add_touches_only_its_line
        (product : ProductRef) (quantity : Q) (w : World)
        (c : Completion unit) (w' : World) :
  Cart.add product quantity w = (c, w') ->
  products w' = products w /\ customer w' = customer w /\ console w' = console w
  /\ (forall r, r <> product -> lineOf r (cart w') = lineOf r (cart w))
  /\ map CartItem.getProduct (cart w')
     = map CartItem.getProduct (cart w)
       ++ match c, lineOf product (cart w) with
          | Normal _, None => [product]
          | _, _ => []
          end.
Proof.
  intros H.
  destruct (add_cases product quantity w)
    as [(_ & R)|[(S & L & R)|[(_ & x & L & _ & R)
       |(S & x & pre & post & L & E & N & T & R)]]];
    rewrite R in H; injection H as <- <-;
    cbn [cart products customer console setCart];
    do 3 (split; [reflexivity|]); split.
  - reflexivity.
  - rewrite app_nil_r. reflexivity.
  - intros r Hr. apply lineOf_snoc_other. simpl. congruence.
  - rewrite L, map_app. reflexivity.
  - reflexivity.
  - rewrite app_nil_r. reflexivity.
  - destruct (lineOf_Some _ _ _ L) as (pre' & post' & _ & _ & P & _).
    intros r Hr. rewrite E. apply lineOf_replace_other; simpl; congruence.
  - destruct (lineOf_Some _ _ _ L) as (pre' & post' & _ & _ & P & _).
    rewrite L, app_nil_r, E, !map_app. simpl. rewrite P. reflexivity.
Qed.

Lemma add_touches_only_its_line_witness :
  map CartItem.getProduct
    (cart (snd (Cart.add 3%nat 1
                  (setCart [CartItem.make 0%nat 2; CartItem.make 1%nat 1]
                     (sampleWorld 0)))))
  = [0%nat; 1%nat; 3%nat]
  /\ lineOf 1%nat
       (cart (snd (Cart.add 3%nat 1
                     (setCart [CartItem.make 0%nat 2; CartItem.make 1%nat 1]
                        (sampleWorld 0)))))
     = Some (CartItem.make 1%nat 1).
Proof.
  destruct (add_touches_only_its_line 3%nat 1
              (setCart [CartItem.make 0%nat 2; CartItem.make 1%nat 1] (sampleWorld 0))
              _ _ (surjective_pairing _))
    as (_ & _ & _ & Hl & Hm).
  split; [rewrite Hm; reflexivity|].
  rewrite (Hl 1%nat); [reflexivity|discriminate].
Defined.

(** ** How a checkout ends *)





(** What a checkout that succeeded has found and has done. *)
Lemma checkout_committed (now : Z) (w w' : World) :
  ECommerceSystem.checkout now w = (Normal tt, w') ->
  cart w <> []
  /\ forallb (validLine now w) (cart w) = true
  /\ totalAmountOf w <= Customer.balance (customer w)
  /\ customer w'
     = Customer.setBalance (Customer.balance (customer w) - totalAmountOf w)
         (customer w)
  /\ cart w' = cart w
  /\ sameButStock w w'
  /\ console w'
     = console w ++ shipmentNoticeOf (shippableItemsOf w)
       ++ receiptOf (subtotalOf w) (shippingFeeOf (shippableItemsOf w)) w'.
Proof.
  intros H. apply checkout_outcome_of in H.
  inversion H as [| | | |w1 w3 Hne V ((Hp & Hc & Hk) & Ho) B R]; subst.
  destruct (reduction_frame _ _ _ _ R) as (Fc & Fk & Fo & Fp & _).
  cbn [pay customer cart console products setCustomer] in Fc, Fk, Fo, Fp.
  cbn [customer cart console products setConsole].
  rewrite Hp in Fp.
  repeat (split; [assumption || congruence|]).
  rewrite Fo, Ho, <- app_assoc. reflexivity.
Qed.

Lemma checkout_success_criterion (now : Z) (w : World) :
  NoDup (map CartItem.getProduct (cart w)) ->
  (fst (ECommerceSystem.checkout now w) = Normal tt
   <-> cart w <> []
       /\ forallb (validLine now w) (cart w) = true
       /\ totalAmountOf w <= Customer.balance (customer w)).
Proof.
  intros ND. split.
  - intros F. destruct (ECommerceSystem.checkout now w) as [c w'] eqn:E.
    cbn [fst] in F. subst c.
    destruct (checkout_committed _ _ _ E) as (Hne & V & B & _). auto.
  - intros (Hne & V & B).
    destruct (ECommerceSystem.checkout now w) as [[[]|e] w'] eqn:E;
      [reflexivity|exfalso].
    pose proof (checkout_fails_before_commit _ _ _ _ ND E) as Be.
    apply checkout_outcome_of in E. inversion E; subst;
      try contradiction; try lra; try discriminate Be.
    + match goal with V' : forEach _ _ _ = (Throw _, _) |- _ =>
        apply validation_passes in V; rewrite V in V'; discriminate V'
      end.
    + match goal with R : forEach reduceLine _ _ = _ |- _ =>
        apply reduction_error in R; subst; discriminate Be
      end.
Qed.







(** A cart with two lines for one product, which [add] never builds,
    passes the validation line by line and fails in the commit phase:
    the customer has paid, the stock is lowered once, no receipt. *)
Lemma checkout_halfway_example :
  fst (ECommerceSystem.checkout 0
         (setCart [CartItem.make 0%nat 6; CartItem.make 0%nat 6]
            (scenario 5000 0 (fun _ => noProduct))))
  = Throw StockNotAvailable
  /\ Customer.balance
       (customer
          (snd (ECommerceSystem.checkout 0
                  (setCart [CartItem.make 0%nat 6; CartItem.make 0%nat 6]
                     (scenario 5000 0 (fun _ => noProduct))))))
     = 3800
  /\ Product.quantity
       (products
          (snd (ECommerceSystem.checkout 0
                  (setCart [CartItem.make 0%nat 6; CartItem.make 0%nat 6]
                     (scenario 5000 0 (fun _ => noProduct))))) 0%nat)
     = 4
  /\ console
       (snd (ECommerceSystem.checkout 0
               (setCart [CartItem.make 0%nat 6; CartItem.make 0%nat 6]
                  (scenario 5000 0 (fun _ => noProduct)))))
     = [].
Proof. repeat split; vm_compute; reflexivity. Qed.

(** ** What is shipped *)







(** X8. A cart in which every line is for a product that is not shipped
    or has a quantity of zero or less ships nothing: the checkout builds
    no shippable item, the fee is 0, the shipping service prints
    nothing, and the amount is the subtotal. *)
Theorem checkout_ships_nothing (w : World) :
  (forall item, In item (cart w) ->
     Product.requiresShipping (products w (CartItem.getProduct item)) = false
     \/ CartItem.getQuantity item <= 0) ->
  shippableItemsOf w = []
  /\ ShippingService.calculateShippingFee (shippableItemsOf w) w = (Normal 0, w)
  /\ totalAmountOf w == subtotalOf w.
Proof.
  intros H.
  assert (E : shippableItemsOf w = []).
  { unfold shippableItemsOf.
    induction (cart w) as [|item items IH]; simpl; [reflexivity|].
    rewrite IH by (intros x Hx; apply H; right; exact Hx).
    rewrite app_nil_r. unfold ECommerceSystem.shippableItemsOfItem.
    destruct (H item (or_introl eq_refl)) as [-> |Q]; [reflexivity|].
    destruct (Product.requiresShipping _); [|reflexivity].
    apply Qceiling_resp_le in Q. change (Qceiling 0) with 0%Z in Q.
    destruct (Qceiling (CartItem.getQuantity item)); try reflexivity.
    exfalso. apply Q. reflexivity. }
  unfold totalAmountOf. rewrite E. repeat split. simpl. lra.
Qed.

Lemma checkout_ships_nothing_witness :
  shippableItemsOf
    (setCart [CartItem.make 3%nat 4; CartItem.make 2%nat (-1)] (sampleWorld 0)) = [].
Proof.
  apply (checkout_ships_nothing
           (setCart [CartItem.make 3%nat 4; CartItem.make 2%nat (-1)] (sampleWorld 0))).
  intros item [<-|[<-|[]]]; [left; reflexivity|right; unfold Qle; simpl; lia].
Defined.

Lemma fee_of_ceiling (items : list ShippableItem.t) (w : World) (fee : Q) :
  fst (ShippingService.calculateShippingFee items w) = Normal fee ->
  fee = inject_Z (Qceiling (ShippingService.totalWeightOf items * 30)).
Proof.
  rewrite calculateShippingFee_value, shippingFeeOf_ceil. intros [= <-]. reflexivity.
Qed.

Lemma totalWeightOf_nonneg (items : list ShippableItem.t) :
  Forall (fun item => 0 <= ShippableItem.getWeight item) items ->
  0 <= ShippingService.totalWeightOf items.
Proof.
  induction 1 as [|item items Hi _ IH].
  - unfold ShippingService.totalWeightOf. simpl. lra.
  - rewrite totalWeightOf_cons. lra.
Qed.

(** X10. No weight being negative, the fee is not negative; it is 0
    when the total weight is 0, and at least 1 as soon as the total
    weight is positive, however small. *)
Theorem fee_is_zero_or_at_least_one
        (items : list ShippableItem.t) (w : World) (fee : Q) :
  Forall (fun item => 0 <= ShippableItem.getWeight item) items ->
  fst (ShippingService.calculateShippingFee items w) = Normal fee ->
  0 <= fee
  /\ (ShippingService.totalWeightOf items == 0 -> fee = 0)
  /\ (0 < ShippingService.totalWeightOf items -> 1 <= fee).
Proof.
  intros W H. apply fee_of_ceiling in H. subst fee.
  pose proof (totalWeightOf_nonneg items W) as P.
  pose proof (Qle_ceiling (ShippingService.totalWeightOf items * 30)) as C.
  split; [|split].
  - change 0 with (inject_Z 0). rewrite <- Zle_Qle.
    change 0%Z with (Qceiling 0). apply Qceiling_resp_le. lra.
  - intros Z0.
    assert (E : ShippingService.totalWeightOf items * 30 == 0) by (rewrite Z0; ring).
    rewrite (Qceiling_comp _ _ E). reflexivity.
  - intros Pos. change 1 with (inject_Z 1). rewrite <- Zle_Qle.
    assert (L : inject_Z 0 < inject_Z (Qceiling (ShippingService.totalWeightOf items * 30))).
    { change (inject_Z 0) with 0. lra. }
    rewrite <- Zlt_Qlt in L. lia.
Qed.

Lemma fee_at_least_one_witness :
  fst (ShippingService.calculateShippingFee
         [ShippableItem.make "Mobile Scratch Card" 0.001] (sampleWorld 0)) = Normal 1
  /\ 1 <= 1.
Proof.
  split; [reflexivity|].
  apply (proj2 (proj2 (fee_is_zero_or_at_least_one
                         [ShippableItem.make "Mobile Scratch Card" 0.001]
                         (sampleWorld 0) 1
                         ltac:(repeat constructor; unfold Qle; simpl; lia)
                         eq_refl))).
  unfold Qlt. simpl. lia.
Defined.

(** ** Sums and stocks *)

Lemma fold_left_Qsum {A : Type} (f : A -> Q) (xs : list A) (start : Q) :
  fold_left (fun sum x => sum + f x) xs start == start + Qsum (map f xs).
Proof.
  revert start. induction xs as [|x xs IH]; intros start; simpl.
  - lra.
  - rewrite IH. lra.
Qed.

Lemma subtotalOf_Qsum (w : World) :
  subtotalOf w == Qsum (map (getTotalPrice w) (cart w)).
Proof. unfold subtotalOf. rewrite fold_left_Qsum. lra. Qed.

(** The stocks after a checkout that succeeded on a cart with one line
    per product. *)
Lemma checkout_stock_after (now : Z) (w w' : World) :
  NoDup (map CartItem.getProduct (cart w)) ->
  ECommerceSystem.checkout now w = (Normal tt, w') ->
  (forall item, In item (cart w) ->
     Product.quantity (products w' (CartItem.getProduct item))
     = Product.quantity (products w (CartItem.getProduct item))
       - CartItem.getQuantity item)
  /\ (forall r, ~ In r (map CartItem.getProduct (cart w)) ->
        products w' r = products w r).
Proof.
  intros ND H. apply checkout_outcome_of in H.
  inversion H as [| | | |w1 w3 Hne V ((Hp & Hc & Hk) & Ho) B R]; subst.
  destruct (reduction_frame _ _ _ _ R) as (_ & _ & _ & _ & Fu).
  cbn [products setConsole]. split.
  - intros item Hin. rewrite (reduction_stock _ _ _ ND R item Hin).
    cbn [pay products setCustomer]. rewrite Hp. reflexivity.
  - intros r Hr. rewrite (Fu r Hr). cbn [pay products setCustomer].
    rewrite Hp. reflexivity.
Qed.

(** ** Expiry *)

Lemma isExpired_later (now now' : Z) (p : Product.t) :
  (now <= now')%Z -> Product.isExpired now p = true -> Product.isExpired now' p = true.
Proof.
  unfold Product.isExpired. destruct (Product.variant p) as [d|]; [|discriminate].
  intros L H. apply Z.gtb_lt in H. apply Z.gtb_lt. lia.
Qed.

Lemma validation_expired_later (now now' : Z) (w : World) (items : list CartItem.t) :
  (now <= now')%Z ->
  forall name,
    forEach (ECommerceSystem.validateItem now) items w = (Throw (ProductExpired name), w) ->
    exists name',
      forEach (ECommerceSystem.validateItem now') items w
      = (Throw (ProductExpired name'), w).
Proof.
  intros L. induction items as [|item items IH]; intros name; simpl; [discriminate|].
  unfold bind. rewrite !validateItem_run. cbv zeta.
  destruct (Product.isExpired now _) eqn:X.
  - rewrite (isExpired_later _ _ _ L X). eauto.
  - destruct (Qltb _ _); [discriminate|].
    destruct (Product.isExpired now' _); eauto.
Qed.

(** X13. A product that does not expire is never expired.  A product
    that expires is not yet expired at its expiry date, is expired one
    millisecond later, and once expired stays expired.  So a checkout
    that fails for an expired product fails for an expired product at
    every later time, as long as the world is the same. *)
Theorem expired_stays_expired :
  (forall now p,
     Product.variant p = Product.NonExpirableProduct ->
     Product.isExpired now p = false)
  /\ (forall expiryDate p,
        Product.variant p = Product.ExpirableProduct expiryDate ->
        Product.isExpired expiryDate p = false
        /\ Product.isExpired (expiryDate + 1) p = true)
  /\ (forall now now' p,
        (now <= now')%Z ->
        Product.isExpired now p = true -> Product.isExpired now' p = true)
  /\ (forall now now' w name,
        (now <= now')%Z ->
        fst (ECommerceSystem.checkout now w) = Throw (ProductExpired name) ->
        exists name',
          ECommerceSystem.checkout now' w = (Throw (ProductExpired name'), w)).
Proof.
  split; [|split; [|split]].
  - intros now p V. unfold Product.isExpired. rewrite V. reflexivity.
  - intros d p V. unfold Product.isExpired. rewrite V. split.
    + rewrite Z.gtb_ltb. apply Z.ltb_irrefl.
    + apply Z.gtb_lt. lia.
  - exact isExpired_later.
  - intros now now' w name L F.
    destruct (ECommerceSystem.checkout now w) as [c w'] eqn:E.
    cbn [fst] in F. subst c. apply checkout_outcome_of in E.
    inversion E as [|e Hne V| |w1 e w3 Hne V N B R|]; subst.
    + destruct (validation_expired_later _ _ _ _ L _ V) as (name' & V').
      exists name'. rewrite checkout_run.
      destruct (cart w'); [contradiction|].
      rewrite V'. reflexivity.
    + apply reduction_error in R. discriminate R.
Qed.

Lemma expired_stays_expired_witness :
  exists name',
    ECommerceSystem.checkout (9 * day)
      (setCart [CartItem.make 3%nat 1; CartItem.make 0%nat 2] (sampleWorld 0))
    = (Throw (ProductExpired name'),
       setCart [CartItem.make 3%nat 1; CartItem.make 0%nat 2] (sampleWorld 0)).
Proof.
  apply (proj2 (proj2 (proj2 expired_stays_expired)) (6 * day)%Z (9 * day)%Z
           (setCart [CartItem.make 3%nat 1; CartItem.make 0%nat 2] (sampleWorld 0))
           "Cheese"%string).
  - vm_compute. discriminate.
  - reflexivity.
Defined.

(** ** What a checkout never gives *)

Lemma subtotalOf_nonneg (w : World) : nonNegativeData w -> 0 <= subtotalOf w.
Proof.
  intros [Hp Hq]. rewrite subtotalOf_Qsum.
  induction Hq as [|item items Hi _ IH]; simpl; [lra|].
  assert (0 <= getTotalPrice w item).
  { unfold getTotalPrice. apply Qmult_le_0_compat; [apply Hp|exact Hi]. }
  lra.
Qed.

Lemma shippableItemsOf_nonneg (w : World) :
  (forall r, 0 <= Product.weight (products w r)) ->
  Forall (fun item => 0 <= ShippableItem.getWeight item) (shippableItemsOf w).
Proof.
  intros Hw. unfold shippableItemsOf. apply Forall_flat_map.
  apply Forall_forall. intros item _.
  unfold ECommerceSystem.shippableItemsOfItem.
  destruct (Product.requiresShipping _); [|constructor].
  apply Forall_forall. intros x Hx. apply repeat_spec in Hx. subst x.
  destruct (Product.variant _); apply Hw.
Qed.

Lemma shippingFeeOf_nonneg (items : list ShippableItem.t) :
  Forall (fun item => 0 <= ShippableItem.getWeight item) items ->
  0 <= shippingFeeOf items.
Proof.
  intros W. rewrite shippingFeeOf_ceil. unfold Math.ceil.
  pose proof (totalWeightOf_nonneg items W) as P.
  change 0 with (inject_Z 0). rewrite <- Zle_Qle.
  change 0%Z with (Qceiling 0). apply Qceiling_resp_le.
  unfold ShippingService.SHIPPING_RATE_PER_KG. lra.
Qed.

Lemma reduction_decreases (items : list CartItem.t) :
  Forall (fun item => 0 <= CartItem.getQuantity item) items ->
  forall w c w',
    forEach reduceLine items w = (c, w') ->
    forall r, Product.quantity (products w' r) <= Product.quantity (products w r).
Proof.
  induction 1 as [|item items Hi _ IH]; intros w c w'; simpl.
  - unfold ret. intros [= <- <-] r. lra.
  - unfold bind. rewrite reduceLine_run. cbv zeta.
    destruct (Qgtb _ _).
    + intros [= <- <-] r. cbn [products setProducts].
      rewrite update_unchanged. lra.
    + intros H r. pose proof (IH _ _ _ H r) as D.
      cbn [products setProducts] in D. unfold update in D.
      destruct (Nat.eqb_spec (CartItem.getProduct item) r); [subst r|exact D].
      cbn [Product.quantity Product.setQuantity] in D. lra.
Qed.

(** X14. No price, no weight and no quantity of the cart being
    negative, a checkout gives nothing away: however it ends, the
    balance of the customer is at most what it was and so is the stock
    of every product. *)
Theorem checkout_never_gives
        (now : Z) (w : World) (c : Completion unit) (w' : World) :
  nonNegativeData w ->
  ECommerceSystem.checkout now w = (c, w') ->
  Customer.balance (customer w') <= Customer.balance (customer w)
  /\ forall r, Product.quantity (products w' r) <= Product.quantity (products w r).
Proof.
  intros D H.
  assert (T : 0 <= totalAmountOf w).
  { unfold totalAmountOf. pose proof (subtotalOf_nonneg w D).
    pose proof (shippingFeeOf_nonneg _
                  (shippableItemsOf_nonneg w (fun r => proj2 (proj1 D r)))).
    lra. }
  apply checkout_outcome_of in H.
  inversion H as [E|e Hne V|w1 Hne V ((Hp & Hc & Hk) & Ho) B
                 |w1 e w3 Hne V ((Hp & Hc & Hk) & Ho) B R
                 |w1 w3 Hne V ((Hp & Hc & Hk) & Ho) B R]; subst.
  - split; [lra|intros r; lra].
  - split; [lra|intros r; lra].
  - rewrite Hc, Hp. split; [lra|intros r; lra].
  - destruct (reduction_frame _ _ _ _ R) as (Fc & _).
    split.
    + rewrite Fc. cbn [pay customer setCustomer Customer.balance Customer.setBalance].
      lra.
    + intros r. pose proof (reduction_decreases _ (proj2 D) _ _ _ R r) as Q.
      cbn [pay products setCustomer] in Q. rewrite Hp in Q. exact Q.
  - destruct (reduction_frame _ _ _ _ R) as (Fc & _).
    cbn [customer products setConsole]. split.
    + rewrite Fc. cbn [pay customer setCustomer Customer.balance Customer.setBalance].
      lra.
    + intros r. pose proof (reduction_decreases _ (proj2 D) _ _ _ R r) as Q.
      cbn [pay products setCustomer] in Q. rewrite Hp in Q. exact Q.
Qed.

Lemma checkout_never_gives_witness :
  Customer.balance
    (customer (snd (ECommerceSystem.checkout 0 (scenario 1000 0 (fun _ => noProduct)))))
  <= 1000.
Proof.
  refine (proj1 (checkout_never_gives 0 (scenario 1000 0 (fun _ => noProduct))
                   _ _ _ (surjective_pairing _))).
  split.
  - intros [|[|r]]; split; unfold Qle; simpl; lia.
  - repeat constructor; unfold Qle; simpl; lia.
Defined.

(** ** A line with a negative quantity *)

(** X17. Nothing in the checkout rejects a negative quantity.  For a
    cart of one line with a negative quantity, for a product that is not
    expired, has a positive price and a stock that is not negative, and
    a customer whose balance is not negative, the checkout succeeds,
    ships nothing, and leaves the customer with more than before and the
    product with more stock than before. *)
Theorem checkout_of_a_negative_line_pays_the_customer
        (now : Z) (w : World) (item : CartItem.t) :
  cart w = [item] ->
  CartItem.getQuantity item < 0 ->
  0 < Product.getPrice (products w (CartItem.getProduct item)) ->
  Product.isExpired now (products w (CartItem.getProduct item)) = false ->
  0 <= Product.getQuantity (products w (CartItem.getProduct item)) ->
  0 <= Customer.getBalance (customer w) ->
  exists w',
    ECommerceSystem.checkout now w = (Normal tt, w')
    /\ shippableItemsOf w = []
    /\ Customer.getBalance (customer w) < Customer.getBalance (customer w')
    /\ Product.getQuantity (products w (CartItem.getProduct item))
       < Product.getQuantity (products w' (CartItem.getProduct item)).
Proof.
  unfold Product.getPrice, Product.getQuantity, Customer.getBalance.
  intros K Q P X S B.
  assert (ND : NoDup (map CartItem.getProduct (cart w))).
  { rewrite K. repeat constructor. simpl. tauto. }
  assert (Sh : shippableItemsOf w = []).
  { unfold shippableItemsOf. rewrite K. simpl. rewrite app_nil_r.
    unfold ECommerceSystem.shippableItemsOfItem.
    destruct (Product.requiresShipping _); [|reflexivity].
    assert (Q' : CartItem.getQuantity item <= 0) by lra.
    apply Qceiling_resp_le in Q'. change (Qceiling 0) with 0%Z in Q'.
    destruct (Qceiling (CartItem.getQuantity item)); try reflexivity.
    exfalso. apply Q'. reflexivity. }
  assert (T : totalAmountOf w < 0).
  { unfold totalAmountOf. rewrite Sh. unfold subtotalOf. rewrite K.
    cbn [fold_left shippingFeeOf]. unfold getTotalPrice, Product.getPrice.
    nra. }
  assert (F : fst (ECommerceSystem.checkout now w) = Normal tt).
  { apply (checkout_success_criterion now w ND).
    split; [rewrite K; discriminate|]. split; [|lra].
    rewrite K. cbn [forallb]. unfold validLine. cbv zeta.
    rewrite X, andb_true_r. cbn [negb andb]. apply negb_true_iff.
    apply Qltb_false. unfold Product.getQuantity. lra. }
  destruct (ECommerceSystem.checkout now w) as [c w'] eqn:E.
  cbn [fst] in F. subst c. exists w'.
  destruct (checkout_committed _ _ _ E) as (_ & _ & _ & C & _).
  destruct (checkout_stock_after _ _ _ ND E) as (St & _).
  split; [reflexivity|]. split; [exact Sh|].
  rewrite C, (St item) by (rewrite K; left; reflexivity).
  cbn [Customer.balance Customer.setBalance]. split; lra.
Qed.

Lemma checkout_of_a_negative_line_witness :
  exists w',
    ECommerceSystem.checkout 0 (setCart [CartItem.make 0%nat (-3)] (sampleWorld 0))
    = (Normal tt, w')
    /\ 1000 < Customer.getBalance (customer w')
    /\ 10 < Product.getQuantity (products w' 0%nat).
Proof.
  destruct (checkout_of_a_negative_line_pays_the_customer 0
              (setCart [CartItem.make 0%nat (-3)] (sampleWorld 0))
              (CartItem.make 0%nat (-3)))
    as (w' & E & _ & B & S);
    try reflexivity; try (unfold Qlt; simpl; lia); try (unfold Qle; simpl; lia).
  exists w'. repeat split; assumption.
Defined.

(** ** The program of the source, at any time *)

Lemma main_never_throws (withTV : bool) (now : Z) (w : World) :
  fst (main withTV now w) = Normal tt.
Proof.
  unfold main, tryCatch.
  match goal with |- context [match ?b w with _ => _ end] => destruct (b w) as [[[]|e] w'] end;
    reflexivity.
Qed.

(** X18. The program of the source never ends by an error: what is
    thrown is caught and printed.  With the three TVs of the commented
    line in the cart, whatever the time and the expiry dates, it shows no
    receipt, prints an error, sells nothing and debits nothing.  Without
    them, while neither the cheese nor the biscuits are expired, it
    prints the shipment notice and the receipt for an amount of 408 and
    leaves a balance of 592; once the cheese is expired it prints that
    the cheese is expired and changes nothing else. *)
Theorem the_program_of_the_source (cheeseExpiry biscuitsExpiry now : Z) :
  (forall withTV w, fst (main withTV now w) = Normal tt)
  /\ (~ In CheckoutReceipt
          (console (snd (main true now (startWorld cheeseExpiry biscuitsExpiry))))
      /\ (exists before e,
            console (snd (main true now (startWorld cheeseExpiry biscuitsExpiry)))
            = before ++ [ErrorLine (message e)])
      /\ products (snd (main true now (startWorld cheeseExpiry biscuitsExpiry)))
         = catalogue cheeseExpiry biscuitsExpiry
      /\ customer (snd (main true now (startWorld cheeseExpiry biscuitsExpiry)))
         = Customer.make "John Doe" 1000)
  /\ ((now <= cheeseExpiry)%Z -> (now <= biscuitsExpiry)%Z ->
      snd (main false now (startWorld cheeseExpiry biscuitsExpiry))
      = mkWorld
          (update 3%nat (Product.setQuantity 99 scratchCard)
             (update 1%nat
                (Product.setQuantity 14 (catalogue cheeseExpiry biscuitsExpiry 1%nat))
                (update 0%nat
                   (Product.setQuantity 8 (catalogue cheeseExpiry biscuitsExpiry 0%nat))
                   (catalogue cheeseExpiry biscuitsExpiry))))
          (Customer.make "John Doe" 592)
          [CartItem.make 0%nat 2; CartItem.make 1%nat 1; CartItem.make 3%nat 1]
          [ShipmentNotice; ShipmentLine "Cheese" 200; ShipmentLine "Cheese" 200;
           ShipmentLine "Biscuits" 700; TotalPackageWeight 1.1;
           CheckoutReceipt; ReceiptLine 2 "Cheese" 200; ReceiptLine 1 "Biscuits" 150;
           ReceiptLine 1 "Mobile Scratch Card" 25; Separator; SubtotalLine 375;
           ShippingLine 33; AmountLine 408; BalanceLine 592.00])
  /\ ((cheeseExpiry < now)%Z ->
      snd (main false now (startWorld cheeseExpiry biscuitsExpiry))
      = mkWorld (catalogue cheeseExpiry biscuitsExpiry) (Customer.make "John Doe" 1000)
          [CartItem.make 0%nat 2; CartItem.make 1%nat 1; CartItem.make 3%nat 1]
          [ErrorLine "Product Cheese is expired"]).
Proof.
  split; [intros; apply main_never_throws|].
  split; [|split].
  - set (W := mkWorld (catalogue cheeseExpiry biscuitsExpiry)
                (Customer.make "John Doe" 1000)
                [CartItem.make 0%nat 2; CartItem.make 2%nat 3;
                 CartItem.make 1%nat 1; CartItem.make 3%nat 1] []).
    assert (A : main true now (startWorld cheeseExpiry biscuitsExpiry)
                = tryCatch (ECommerceSystem.checkout now)
                    (fun error => log (ErrorLine (message error))) W) by reflexivity.
    rewrite A. unfold tryCatch.
    destruct (ECommerceSystem.checkout now W) as [c w'] eqn:E.
    apply checkout_outcome_of in E.
    inversion E as [K|e Hne V|w1 Hne V ((Hp & Hc & Hk) & Ho) B
                   |w1 e w3 Hne V N B R|w1 w3 Hne V N B R]; subst.
    + discriminate K.
    + cbn [snd log modify console products customer setConsole W].
      split; [simpl; intuition discriminate|].
      split; [exists [], e; reflexivity|]. split; reflexivity.
    + rewrite log_run. cbn [snd console products customer setConsole].
      rewrite Ho, Hp, Hc. split; [|split; [|split; reflexivity]].
      * vm_compute. intuition discriminate.
      * eexists. exists InsufficientBalance. reflexivity.
    + exfalso. vm_compute in B. apply B. reflexivity.
    + exfalso. vm_compute in B. apply B. reflexivity.
  - intros L1 L2.
    set (W := mkWorld (catalogue cheeseExpiry biscuitsExpiry)
                (Customer.make "John Doe" 1000)
                [CartItem.make 0%nat 2; CartItem.make 1%nat 1; CartItem.make 3%nat 1] []).
    assert (A : main false now (startWorld cheeseExpiry biscuitsExpiry)
                = tryCatch (ECommerceSystem.checkout now)
                    (fun error => log (ErrorLine (message error))) W) by reflexivity.
    rewrite A. unfold tryCatch. rewrite checkout_run.
    assert (V : forEach (ECommerceSystem.validateItem now) (cart W) W = (Normal tt, W)).
    { apply validation_passes. cbn [cart W forallb]. unfold validLine. cbv zeta.
      cbn [products W catalogue CartItem.getProduct CartItem.product
           Product.isExpired Product.variant tv scratchCard].
      assert (X1 : (now >? cheeseExpiry)%Z = false) by (rewrite Z.gtb_ltb; apply Z.ltb_ge; lia).
      assert (X2 : (now >? biscuitsExpiry)%Z = false) by (rewrite Z.gtb_ltb; apply Z.ltb_ge; lia).
      rewrite X1, X2. reflexivity. }
    rewrite V. vm_compute. reflexivity.
  - intros L1.
    set (W := mkWorld (catalogue cheeseExpiry biscuitsExpiry)
                (Customer.make "John Doe" 1000)
                [CartItem.make 0%nat 2; CartItem.make 1%nat 1; CartItem.make 3%nat 1] []).
    assert (A : main false now (startWorld cheeseExpiry biscuitsExpiry)
                = tryCatch (ECommerceSystem.checkout now)
                    (fun error => log (ErrorLine (message error))) W) by reflexivity.
    rewrite A. unfold tryCatch. rewrite checkout_run.
    assert (V : forEach (ECommerceSystem.validateItem now) (cart W) W
                = (Throw (ProductExpired "Cheese"), W)).
    { pose proof (validation_first_offender now []
                    [CartItem.make 1%nat 1; CartItem.make 3%nat 1]
                    (CartItem.make 0%nat 2) W eq_refl) as F.
      cbn [app] in F. cbn [cart W]. rewrite F.
      rewrite validateItem_run. cbv zeta.
      cbn [products W catalogue CartItem.getProduct CartItem.product
           Product.isExpired Product.variant].
      assert (X1 : (now >? cheeseExpiry)%Z = true) by (apply Z.gtb_lt; lia).
      rewrite X1. reflexivity. }
    rewrite V. reflexivity.
Qed.

Lemma the_program_of_the_source_witness :
  console (snd (main false (3 * day) (startWorld (5 * day) (30 * day))))
  = [ShipmentNotice; ShipmentLine "Cheese" 200; ShipmentLine "Cheese" 200;
     ShipmentLine "Biscuits" 700; TotalPackageWeight 1.1;
     CheckoutReceipt; ReceiptLine 2 "Cheese" 200; ReceiptLine 1 "Biscuits" 150;
     ReceiptLine 1 "Mobile Scratch Card" 25; Separator; SubtotalLine 375;
     ShippingLine 33; AmountLine 408; BalanceLine 592.00].
Proof.
  rewrite (proj1 (proj2 (proj2 (the_program_of_the_source (5 * day) (30 * day) (3 * day))))).
  - reflexivity.
  - vm_compute. discriminate.
  - vm_compute. discriminate.
Defined.

(** ** What the shipping service prints *)

(** X19. The shipping service always returns a fee and touches neither
    the products nor the customer nor the cart.  For no item it prints
    nothing; otherwise it adds to the console the notice, one line for
    every item, in order, with its name and its weight in grams rounded
    to an integer, and the line of the total weight: two lines more than
    there are items. *)
Theorem calculateShippingFee_only_prints (items : list ShippableItem.t) (w : World) :
  exists fee w',
    ShippingService.calculateShippingFee items w = (Normal fee, w')
    /\ sameEntities w w'
    /\ (items = [] -> w' = w)
    /\ (items <> [] ->
        exists total,
          console w'
          = console w
            ++ ShipmentNotice
               :: map (fun item =>
                         ShipmentLine (ShippableItem.getName item)
                           (Math.round (ShippableItem.getWeight item * 1000)))
                      items
            ++ [TotalPackageWeight total]
          /\ length (console w') = (length (console w) + (length items + 2))%nat).
Proof.
  destruct (calculateShippingFee_run items w) as (w' & R & S & Ho).
  exists (shippingFeeOf items), w'. split; [exact R|]. split; [exact S|]. split.
  - intros ->. simpl in R. injection R as <-. reflexivity.
  - intros Hne. destruct items as [|item items]; [contradiction|].
    eexists. split; [exact Ho|].
    rewrite Ho. cbn [shipmentNoticeOf].
    rewrite length_app. cbn [length]. rewrite length_app, length_map.
    cbn [length]. lia.
Qed.

Lemma calculateShippingFee_only_prints_witness :
  exists fee w',
    ShippingService.calculateShippingFee [ShippableItem.make "TV" 15] (sampleWorld 0)
    = (Normal fee, w')
    /\ length (console w') = 3%nat.
Proof.
  destruct (calculateShippingFee_only_prints [ShippableItem.make "TV" 15] (sampleWorld 0))
    as (fee & w' & R & _ & _ & P).
  exists fee, w'. split; [exact R|].
  destruct (P ltac:(discriminate)) as (total & _ & L). exact L.
Defined.

(** ** From [add] to the checkout *)

Lemma addEach_invariants (requests : list (ProductRef * Q)) :
  forall w c w',
    NoDup (map CartItem.getProduct (cart w)) ->
    withinStock w ->
    addEach requests w = (c, w') ->
    NoDup (map CartItem.getProduct (cart w')) /\ withinStock w'
    /\ products w' = products w /\ customer w' = customer w.
Proof.
  unfold addEach.
  induction requests as [|[product quantity] requests IH]; intros w c w' ND W; simpl.
  - unfold ret. intros [= <- <-]. auto.
  - unfold bind.
    destruct (Cart.add product quantity w) as [[[]|e] w1] eqn:A.
    + intros H.
      destruct (add_entities _ _ _ _ _ A) as (Hp & Hc & _).
      destruct (IH _ _ _ (add_keeps_one_line_per_product _ _ _ _ _ ND A)
                  (withinStock_add _ _ _ _ _ W A) H) as (ND' & W' & Hp' & Hc').
      repeat split; try assumption; congruence.
    + intros [= <- <-].
      destruct (add_entities _ _ _ _ _ A) as (Hp & Hc & _).
      split; [exact (add_keeps_one_line_per_product _ _ _ _ _ ND A)|].
      split; [exact (withinStock_add _ _ _ _ _ W A)|]. auto.
Qed.

Lemma validation_within_stock (now : Z) (w : World) (items : list CartItem.t) :
  Forall (fun item =>
            CartItem.getQuantity item
            <= Product.getQuantity (products w (CartItem.getProduct item))) items ->
  forall name w',
    forEach (ECommerceSystem.validateItem now) items w
    <> (Throw (InsufficientStock name), w').
Proof.
  induction 1 as [|item items Hi _ IH]; intros name w'; simpl; [discriminate|].
  unfold bind. rewrite validateItem_run. cbv zeta.
  destruct (Product.isExpired now _); [discriminate|].
  apply Qltb_false in Hi. rewrite Hi. apply IH.
Qed.

(** X20. A cart that calls of [add] have filled passes the stock check
    of the checkout as long as no stock has changed.  Started on a cart
    with one line per product and every line within the stock (an empty
    cart is one), a run of calls of [add], wherever it stops, leaves
    such a cart and touches neither the products nor the customer; and a
    checkout of such a cart never fails for a stock below the quantity
    and never fails after it has begun to debit. *)
Theorem cart_filled_by_add_passes_the_stock_check
        (requests : list (ProductRef * Q)) (w : World)
        (c : Completion unit) (w' : World) :
  NoDup (map CartItem.getProduct (cart w)) ->
  withinStock w ->
  addEach requests w = (c, w') ->
  NoDup (map CartItem.getProduct (cart w')) /\ withinStock w'
  /\ products w' = products w /\ customer w' = customer w
  /\ (forall now name,
        fst (ECommerceSystem.checkout now w') <> Throw (InsufficientStock name))
  /\ (forall now e w'',
        ECommerceSystem.checkout now w' = (Throw e, w'') ->
        beforeCommit e = true /\ sameEntities w' w'').
Proof.
  intros ND W H.
  destruct (addEach_invariants _ _ _ _ ND W H) as (ND' & W' & Hp & Hc).
  repeat (split; [assumption|]). split.
  - intros now name F.
    destruct (ECommerceSystem.checkout now w') as [c' w''] eqn:E.
    cbn [fst] in F. subst c'. apply checkout_outcome_of in E.
    inversion E as [|e Hne V| |w1 e w3 Hne V N B R|]; subst.
    + exact (validation_within_stock now _ _ W' _ _ V).
    + apply reduction_error in R. discriminate R.
  - intros now e w'' E.
    pose proof (checkout_fails_before_commit _ _ _ _ ND' E) as Be.
    split; [exact Be|].
    apply checkout_outcome_of in E. inversion E; subst.
    + apply sameEntities_refl.
    + apply sameEntities_refl.
    + match goal with N : noticed _ _ |- _ => exact (proj1 N) end.
    + match goal with R : forEach reduceLine _ _ = _ |- _ =>
        apply reduction_error in R; subst e; discriminate Be
      end.
Qed.

Lemma cart_filled_by_add_witness :
  withinStock
    (snd (addEach [(0%nat, 2); (0%nat, 9); (1%nat, 1)] (sampleWorld 0)))
  /\ cart (snd (addEach [(0%nat, 2); (0%nat, 9); (1%nat, 1)] (sampleWorld 0)))
     = [CartItem.make 0%nat 2].
Proof.
  split; [|reflexivity].
  refine (proj1 (proj2 (cart_filled_by_add_passes_the_stock_check
                          [(0%nat, 2); (0%nat, 9); (1%nat, 1)] (sampleWorld 0)
                          _ _ _ _ (surjective_pairing _)))); constructor.
Defined.

(** ** The errors of the validation tell the truth *)

Lemma validation_failure_origin (now : Z) (w : World) (items : list CartItem.t) :
  forall e w',
    forEach (ECommerceSystem.validateItem now) items w = (Throw e, w') ->
    exists pre item post,
      items = pre ++ item :: post
      /\ forallb (validLine now w) pre = true
      /\ ECommerceSystem.validateItem now item w = (Throw e, w).
Proof.
  induction items as [|x items IH]; intros e w'; simpl; [discriminate|].
  unfold bind. destruct (validLine now w x) eqn:V.
  - rewrite (validateItem_valid _ _ _ V). intros H.
    destruct (IH _ _ H) as (pre & item & post & -> & F & R).
    exists (x :: pre), item, post. simpl. rewrite V. auto.
  - pose proof (validateItem_run now x w) as R. cbv zeta in R.
    unfold validLine in V. cbv zeta in V.
    destruct (Product.isExpired now _) eqn:X.
    + rewrite R. intros [= <- <-]. exists [], x, items. auto.
    + destruct (Qltb _ _) eqn:L; [|discriminate V].
      rewrite R. intros [= <- <-]. exists [], x, items. auto.
Qed.

(** X21. The errors of the validation tell the truth.  When a checkout
    fails for an expired product, the name is the one of the product of
    a line of the cart, that product is expired, and every line before
    it validates; when it fails for a stock below the quantity, the name
    is the one of the product of a line whose product is not expired and
    has a stock below the quantity of the line, and every line before it
    validates. *)
Theorem checkout_errors_name_the_first_offender (now : Z) (w : World) (name : string) :
  (fst (ECommerceSystem.checkout now w) = Throw (ProductExpired name) ->
   exists pre item post,
     cart w = pre ++ item :: post
     /\ forallb (validLine now w) pre = true
     /\ name = Product.getName (products w (CartItem.getProduct item))
     /\ Product.isExpired now (products w (CartItem.getProduct item)) = true)
  /\ (fst (ECommerceSystem.checkout now w) = Throw (InsufficientStock name) ->
      exists pre item post,
        cart w = pre ++ item :: post
        /\ forallb (validLine now w) pre = true
        /\ name = Product.getName (products w (CartItem.getProduct item))
        /\ Product.isExpired now (products w (CartItem.getProduct item)) = false
        /\ Product.getQuantity (products w (CartItem.getProduct item))
           < CartItem.getQuantity item).
Proof.
  split; intros F;
    destruct (ECommerceSystem.checkout now w) as [c w'] eqn:E;
    cbn [fst] in F; subst c; apply checkout_outcome_of in E;
    inversion E as [|e Hne V| |w1 e w3 Hne V N B R|]; subst;
    try (apply reduction_error in R; discriminate R);
    destruct (validation_failure_origin _ _ _ _ _ V) as (pre & item & post & K & P & R);
    exists pre, item, post; rewrite validateItem_run in R; cbv zeta in R;
    destruct (Product.isExpired now _) eqn:X;
    try destruct (Qltb _ _) eqn:L; try discriminate R;
    injection R as <-; repeat split; try assumption.
  apply Qltb_true. exact L.
Qed.

Lemma checkout_errors_witness :
  exists pre item post,
    [CartItem.make 3%nat 1; CartItem.make 0%nat 20] = pre ++ item :: post
    /\ "Cheese"%string = Product.getName (sampleProducts 0 (CartItem.getProduct item)).
Proof.
  destruct (proj2 (checkout_errors_name_the_first_offender 0
                     (setCart [CartItem.make 3%nat 1; CartItem.make 0%nat 20]
                        (sampleWorld 0)) "Cheese") eq_refl)
    as (pre & item & post & K & _ & N & _).
  exists pre, item, post. split; assumption.
Defined.
